(** * lonehill-weather: the /api/weather Pages Function

    A shallow embedding of [functions/api/weather.js] and the properties
    its specification states about it.  The repository holds two
    revisions of the file; they share every helper and differ in
    [onRequestGet] (the later one reports a [history_error]) and in the
    text of the history URL.

    - JavaScript numbers are IEEE 754 binary64 values: Rocq's primitive
      [float], whose operations are the hardware ones.
    - JavaScript strings are sequences of code units; the model keeps the
      code units below 256 ([string] of [ascii]).
    - Values that travel as JSON (upstream bodies, the stored history
      blob, response payloads) are terms of [value].
    - The handler is effectful: it calls the network and the KV namespace
      and may throw.  Effects are threaded through a state-and-exception
      monad [M] over the KV contents and a log of the calls made.  The
      platform (what each upstream endpoint answers, what [Date.now()]
      returns) is a parameter.
    - Conversions of a value to a string or a number ([parseFloat], the
      comparison of the trim) throw where JavaScript's do: on an object
      that has a [toString] property of its own.
    - A URL fetched is modelled by the endpoint it addresses: the current
      reading, and the history as either revision asks for it.  The text
      of the URLs and the passing of time against the expiry of a KV entry
      are not modelled. *)

From Stdlib Require Import ZArith List String Ascii Bool Lia Floats DecimalString.
From stdpp Require Import gmap strings.
Import ListNotations.

Set Warnings "-inexact-float,-register-all".

Local Open Scope string_scope.
Local Open Scope Z_scope.

(* ===================================================================== *)
(** * Numbers *)
(* ===================================================================== *)

Module Number.

(** [isNaN] on a number. *)
Definition isNaN (x : float) : bool := PrimFloat.is_nan x.

(** Conversion of a decimal numeral to a number: the value
    [m * 10 ^ e10], with sign [neg], rounded to the nearest binary64
    (ties to even).  Non-negative exponents are rounded from the exact
    integer; negative ones from the quotient [m * 2^s / 10^k], carried
    with enough bits that the remainder only decides the rounding
    direction. *)
Definition of_decimal_SF (neg : bool) (m e10 : Z) : spec_float :=
  match m with
  | Zpos _ =>
      match e10 with
      | Zneg k =>
          let d := 10 ^ Zpos k in
          let s := Z.max 0 (Z.log2 d + 64 - Z.log2 m) in
          let '(q, r) := Z.div_eucl (Z.shiftl m s) d in
          binary_round_aux prec emax neg q (- s) (new_location d r)
      | _ => binary_round_aux prec emax neg (m * 10 ^ e10) 0 loc_Exact
      end
  | _ => S754_zero neg
  end.

Definition of_decimal (neg : bool) (m e10 : Z) : float :=
  SF2Prim (of_decimal_SF neg m e10).

(** An integer in a base that is a power of two (hexadecimal, octal and
    binary literals). *)
Definition of_integer (m : Z) : float :=
  SF2Prim (binary_normalize prec emax m 0 false).

(** [-0] read back as [0]: what [ToString] followed by parsing does to
    a number ([String(-0)] is ["0"]); every other number, [NaN] and the
    infinities included, reads back as itself. *)
Definition reparse (x : float) : float :=
  if PrimFloat.is_zero x then PrimFloat.zero else x.

End Number.

(* ===================================================================== *)
(** * Strings: white space, digits, numeric literals *)
(* ===================================================================== *)

Module Lexer.

Definition code (c : ascii) : N := N_of_ascii c.

(** [StrWhiteSpaceChar] among the code units below 256: TAB, LF, VT,
    FF, CR, SP and NBSP. *)
Definition is_white (c : ascii) : bool :=
  let n := code c in
  ((9 <=? n) && (n <=? 13) || (n =? 32) || (n =? 160))%N.

Definition is_digit (c : ascii) : bool :=
  let n := code c in ((48 <=? n) && (n <=? 57))%N.

Definition digit_value (c : ascii) : Z := Z.of_N (code c) - 48.

Definition is_exp_mark (c : ascii) : bool :=
  let n := code c in ((n =? 101) || (n =? 69))%N.

(** The characters a decimal literal is made of: digits, [.], [e], [E],
    [+] and [-]. *)
Definition is_numeric_char (c : ascii) : bool :=
  let n := code c in
  (is_digit c || is_exp_mark c || (n =? 46) || (n =? 43) || (n =? 45))%N.

(** [t] cannot carry a literal further: reading [t] from its start, the
    end of [t] or a character that no literal is made of comes before
    any digit.  So it is when [t] starts with such a character, and when
    [t] holds no digit at all. *)
Fixpoint non_numeric_tail (t : string) : bool :=
  match t with
  | String c r =>
      if is_digit c then false
      else if is_numeric_char c then non_numeric_tail r
      else true
  | EmptyString => true
  end.

(** No character of [t] is a digit. *)
Fixpoint no_digits (t : string) : bool :=
  match t with
  | String c r => negb (is_digit c) && no_digits r
  | EmptyString => true
  end.

Fixpoint trim_start (s : string) : string :=
  match s with
  | String c r => if is_white c then trim_start r else s
  | EmptyString => s
  end.

(** The longest run of digits at the start of [s], and what follows. *)
Fixpoint span_digits (s : string) : string * string :=
  match s with
  | String c r =>
      if is_digit c
      then let '(ds, rest) := span_digits r in (String c ds, rest)
      else (EmptyString, s)
  | EmptyString => (EmptyString, EmptyString)
  end.

(** The integer a run of decimal digits denotes. *)
Fixpoint digits_acc (acc : Z) (ds : string) : Z :=
  match ds with
  | String c r => digits_acc (10 * acc + digit_value c) r
  | EmptyString => acc
  end.

Definition digits_value (ds : string) : Z := digits_acc 0 ds.

Definition is_empty (s : string) : bool :=
  match s with EmptyString => true | _ => false end.

(** An optional sign. *)
Definition scan_sign (s : string) : bool * string :=
  match s with
  | String c r =>
      if (code c =? 45)%N then (true, r)
      else if (code c =? 43)%N then (false, r)
      else (false, s)
  | EmptyString => (false, s)
  end.

(** [ExponentPart], when well formed: [e] or [E], an optional sign, at
    least one digit.  Otherwise nothing is consumed and the exponent
    is 0. *)
Definition scan_exponent (s : string) : Z * string :=
  match s with
  | String c r =>
      if is_exp_mark c then
        let '(neg, r1) := scan_sign r in
        let '(ds, r2) := span_digits r1 in
        if is_empty ds then (0, s)
        else ((if neg then - digits_value ds else digits_value ds), r2)
      else (0, s)
  | EmptyString => (0, s)
  end.

(** The numeric part of a [StrDecimalLiteral]: [Infinity], or integer
    digits, fraction digits and a power of ten. *)
Inductive magnitude : Type :=
| MInfinity
| MDecimal (int frac : string) (exp : Z).

Record literal : Type := Literal { lit_neg : bool; lit_mag : magnitude }.

(** [s] without the prefix [word], when it starts with it. *)
Fixpoint strip_prefix (word s : string) : option string :=
  match word, s with
  | EmptyString, _ => Some s
  | String a word', String c s' =>
      if Ascii.eqb a c then strip_prefix word' s' else None
  | String _ _, EmptyString => None
  end.

(** What follows a decimal point, when [s] starts with one. *)
Definition strip_dot (s : string) : option string :=
  match s with
  | String c r => if (code c =? 46)%N then Some r else None
  | EmptyString => None
  end.

(** [StrUnsignedDecimalLiteral], longest match:
    [Infinity], [digits . digits? exp?], [. digits exp?], [digits exp?]. *)
Definition scan_unsigned (s : string) : option (magnitude * string) :=
  match strip_prefix "Infinity" s with
  | Some rest => Some (MInfinity, rest)
  | None =>
      let '(int, r1) := span_digits s in
      match strip_dot r1 with
      | Some r2 =>
          let '(frac, r3) := span_digits r2 in
          if is_empty int && is_empty frac then None
          else let '(e, r4) := scan_exponent r3 in Some (MDecimal int frac e, r4)
      | None =>
          if is_empty int then None
          else let '(e, r4) := scan_exponent r1 in
               Some (MDecimal int EmptyString e, r4)
      end
  end.

(** The longest prefix of [s] that is a [StrDecimalLiteral], and the
    rest of [s]; [None] when no prefix is one. *)
Definition scan_literal (s : string) : option (literal * string) :=
  let '(neg, r) := scan_sign s in
  match scan_unsigned r with
  | Some (mag, rest) => Some (Literal neg mag, rest)
  | None => None
  end.

(** The mathematical value of a literal, as a number. *)
Definition MV (l : literal) : float :=
  match lit_mag l with
  | MInfinity => if lit_neg l then neg_infinity else infinity
  | MDecimal int frac e =>
      Number.of_decimal (lit_neg l)
        (digits_value (int ++ frac))
        (e - Z.of_nat (String.length frac))
  end.

End Lexer.

(** [parseFloat] on a string: leading white space is skipped, the longest
    prefix that is a decimal literal is converted, and [NaN] is the
    answer when there is none.  What follows the literal is ignored. *)
Definition parseFloat_string (s : string) : float :=
  match Lexer.scan_literal (Lexer.trim_start s) with
  | Some (l, _) => Lexer.MV l
  | None => nan
  end.


(** ** [StringToNumber]: a whole string read as a number *)

Module StringToNumber.
Import Lexer.

Fixpoint all_white (s : string) : bool :=
  match s with
  | String c r => is_white c && all_white r
  | EmptyString => true
  end.

(** The value of a digit in base [radix], letters counting from ten in
    either case. *)
Definition radix_digit (radix : Z) (c : ascii) : option Z :=
  let n := Z.of_N (code c) in
  let v := if (48 <=? n) && (n <=? 57) then n - 48
           else if (97 <=? n) && (n <=? 122) then n - 87
           else if (65 <=? n) && (n <=? 90) then n - 55
           else radix in
  if v <? radix then Some v else None.

(** Digits of base [radix] up to the end of the string, trailing white
    space apart; [None] when anything else follows. *)
Fixpoint radix_digits (radix : Z) (acc : Z) (s : string) : option Z :=
  match s with
  | String c r =>
      match radix_digit radix c with
      | Some v => radix_digits radix (radix * acc + v) r
      | None => if all_white s then Some acc else None
      end
  | EmptyString => Some acc
  end.

(** [NonDecimalIntegerLiteral]: [0x], [0o] or [0b] (either case) and at
    least one digit of that base. *)
Definition non_decimal (s : string) : option (option float) :=
  match s with
  | String "0"%char (String m (String d r)) =>
      let n := code m in
      let radix := (if (n =? 120) || (n =? 88) then 16
                    else if (n =? 111) || (n =? 79) then 8
                    else if (n =? 98) || (n =? 66) then 2
                    else 0)%N in
      if (radix =? 0)%N then None
      else match radix_digit (Z.of_N radix) d with
           | Some v =>
               Some (option_map Number.of_integer
                       (radix_digits (Z.of_N radix) v r))
           | None => Some None
           end
  | _ => None
  end.

(** White space is trimmed at both ends; the empty string is [0]; what
    is left must be one numeric literal, or the result is [NaN]. *)
Definition string_to_number (s : string) : float :=
  let t := trim_start s in
  if is_empty t then PrimFloat.zero
  else match non_decimal t with
       | Some (Some x) => x
       | Some None =>
           (* "0x", "0b2", ...: a base prefix without a literal *)
           nan
       | None =>
           match scan_literal t with
           | Some (l, rest) => if all_white rest then MV l else nan
           | None => nan
           end
       end.

End StringToNumber.

(* ===================================================================== *)
(** * Values *)
(* ===================================================================== *)

(** The values the function handles: what [JSON.parse] produces, and
    [undefined], which reading an absent property yields.  An object is
    the list of its own properties. *)
Inductive value : Type :=
| VUndefined
| VNull
| VBool (b : bool)
| VNum (x : float)
| VStr (s : string)
| VArr (items : list value)
| VObj (fields : list (string * value)).

(** What a computation that may throw ends with. *)
Record js_error : Type := JsError { error_name : string; error_message : string }.

Inductive result (A : Type) : Type :=
| Ok (a : A)
| Throw (e : js_error).
Arguments Ok {A} a.
Arguments Throw {A} e.

Definition TypeError (msg : string) : js_error := JsError "TypeError" msg.
Definition SyntaxError (msg : string) : js_error := JsError "SyntaxError" msg.
Definition Error (msg : string) : js_error := JsError "Error" msg.

(** [Error.prototype.toString], which a template literal applies to a
    rejection reason. *)
Definition error_to_string (e : js_error) : string :=
  if Lexer.is_empty (error_name e) then error_message e
  else if Lexer.is_empty (error_message e) then error_name e
  else error_name e ++ ": " ++ error_message e.

Module Js.

(** [v == null]. *)
Definition nullish (v : value) : bool :=
  match v with VUndefined | VNull => true | _ => false end.

(** [ToBoolean]. *)
Definition truthy (v : value) : bool :=
  match v with
  | VUndefined | VNull => false
  | VBool b => b
  | VNum x => negb (PrimFloat.is_zero x || PrimFloat.is_nan x)
  | VStr s => negb (Lexer.is_empty s)
  | VArr _ | VObj _ => true
  end.

Fixpoint lookup_field (k : string) (fields : list (string * value)) : option value :=
  match fields with
  | (k', v) :: rest => if String.eqb k k' then Some v else lookup_field k rest
  | [] => None
  end.

(** [v.k] for a [v] that is neither [null] nor [undefined] and a data
    property [k]: an object's own property, or [undefined].  Arrays and
    primitives have none of the properties the function reads (it
    reads no [length], index or method through this). *)
Definition prop (v : value) (k : string) : value :=
  match v with
  | VObj fields => default VUndefined (lookup_field k fields)
  | _ => VUndefined
  end.

(** [v.k]: throws on [null] and [undefined]. *)
Definition get (v : value) (k : string) : result value :=
  if nullish v
  then Throw (TypeError ("Cannot read properties of null or undefined (reading '" ++ k ++ "')"))
  else Ok (prop v k).

(** [v?.k]. *)
Definition opt_get (v : value) (k : string) : value :=
  if nullish v then VUndefined else prop v k.

(** [o.k = x] on an object: the property is replaced in place, or added
    last. *)
Fixpoint set_field (k : string) (x : value) (fields : list (string * value))
  : list (string * value) :=
  match fields with
  | (k', v) :: rest =>
      if String.eqb k k' then (k', x) :: rest else (k', v) :: set_field k x rest
  | [] => [(k, x)]
  end.

Definition set_prop (o : value) (k : string) (x : value) : value :=
  match o with
  | VObj fields => VObj (set_field k x fields)
  | _ => o
  end.

(** [v === 0]. *)
Definition is_zero_number (v : value) : bool :=
  match v with VNum x => PrimFloat.eqb x 0 | _ => false end.

(** [v === ''] *)
Definition is_empty_string (v : value) : bool :=
  match v with VStr s => Lexer.is_empty s | _ => false end.

(** [a || b]. *)
Definition or_else (a b : value) : value := if truthy a then a else b.

(** [ToPrimitive v] throws.  The values at hand are what [JSON.parse]
    makes and what the function builds, so no property of theirs is a
    function.  An object with an own [toString] then has no method that
    converts it (the [valueOf] it inherits returns the object itself),
    and [ToPrimitive] throws a [TypeError], for either hint; an object
    without one prints as ["[object Object]"].  An array converts through
    [join], which converts each of its elements, [null] and [undefined]
    apart, to a string. *)
Fixpoint to_primitive_throws (v : value) : bool :=
  match v with
  | VObj fields =>
      match lookup_field "toString" fields with Some _ => true | None => false end
  | VArr items => existsb to_primitive_throws items
  | _ => false
  end.

Definition cannot_convert : js_error :=
  TypeError "Cannot convert object to primitive value".

(** [ToNumber v] for a [v] that [ToPrimitive] converts.  An array goes
    through [ToString]: the empty array and [[null]] are the empty
    string, a one-element array is its element's string, and two
    elements or more give a string with a comma, which is no number.  A
    plain object is ["[object Object]"]. *)
Fixpoint to_number_value (v : value) : float :=
  match v with
  | VUndefined => nan
  | VNull => PrimFloat.zero
  | VBool b => if b then PrimFloat.one else PrimFloat.zero
  | VNum x => x
  | VStr s => StringToNumber.string_to_number s
  | VArr [] => PrimFloat.zero
  | VArr [e] =>
      match e with
      | VUndefined | VNull => PrimFloat.zero
      | VBool _ | VObj _ => nan
      | VNum x => Number.reparse x
      | VStr _ | VArr _ => to_number_value e
      end
  | VArr _ => nan
  | VObj _ => nan
  end.

(** [ToNumber]. *)
Definition to_number (v : value) : result float :=
  if to_primitive_throws v then Throw cannot_convert else Ok (to_number_value v).

(** [a > b] with [b] a number: [ToNumber a] compared with [b], false
    when either is [NaN]; it throws when the conversion of [a] does. *)
Definition gt_number (a : value) (b : float) : result bool :=
  match to_number a with
  | Ok x => Ok (PrimFloat.ltb b x)
  | Throw e => Throw e
  end.

(** The longest numeric prefix of [ToString v], for a [v] that
    [ToPrimitive] converts.  A number prints to a string that reads back
    as itself ([-0] as [0]); an array prints its elements separated by
    commas, so only its first element can contribute a prefix; [true],
    [null], [undefined] and ["[object Object]"] have none. *)
Fixpoint parseFloat_value (v : value) : float :=
  match v with
  | VStr s => parseFloat_string s
  | VNum x => Number.reparse x
  | VArr (e :: _) =>
      match e with
      | VUndefined | VNull => nan
      | _ => parseFloat_value e
      end
  | _ => nan
  end.

(** [parseFloat v]: [ToString v], which may throw, then the longest
    numeric prefix. *)
Definition parseFloat (v : value) : result float :=
  if to_primitive_throws v then Throw cannot_convert else Ok (parseFloat_value v).

(** [JSON.parse (JSON.stringify v)] for a [v] nested in an array or an
    object: numbers that are not finite become [null], [-0] becomes
    [0], [undefined] becomes [null] in an array and is dropped from an
    object. *)
Fixpoint json_roundtrip (v : value) : value :=
  match v with
  | VUndefined => VNull
  | VNum x =>
      if PrimFloat.is_nan x || PrimFloat.is_infinity x then VNull
      else VNum (Number.reparse x)
  | VArr items => VArr (List.map json_roundtrip items)
  | VObj fields =>
      VObj ((fix go (fs : list (string * value)) : list (string * value) :=
               match fs with
               | (k, VUndefined) :: rest => go rest
               | (k, x) :: rest => (k, json_roundtrip x) :: go rest
               | [] => []
               end) fields)
  | _ => v
  end.

(** The elements of an array (none for any other value). *)
Definition items_of (v : value) : list value :=
  match v with VArr items => items | _ => [] end.

End Js.

(* ===================================================================== *)
(** * Constants, unit conversion and the upstream value parser *)
(* ===================================================================== *)

(** [const KV_HISTORY_KEY = 'trend_history'] *)
Definition KV_HISTORY_KEY : string := "trend_history".

(** [const MAX_HISTORY_HOURS = 48] *)
Definition MAX_HISTORY_HOURS : float := 48.

(** [const fToC = (f) => (f - 32) * 5 / 9] *)
Definition fToC (f : float) : float := ((f - 32) * 5 / 9)%float.

(** [const inHgToHPa = (inHg) => inHg * 33.8639] *)
Definition inHgToHPa (inHg : float) : float := (inHg * 33.8639)%float.

(** [parseEcowittValue(obj)]: [None] is the [null] the function
    returns; it throws when [parseFloat] does. *)
Definition parseEcowittValue (obj : value) : result (option float) :=
  if Js.nullish obj then Ok None
  else if Js.nullish (Js.prop obj "value") then Ok None
  else if Js.is_empty_string (Js.prop obj "value") then Ok None
  else
    match Js.parseFloat (Js.prop obj "value") with
    | Ok n => Ok (if Number.isNaN n then None else Some n)
    | Throw e => Throw e
    end.

(* ===================================================================== *)
(** * Effects: the network, the clock and the KV namespace *)
(* ===================================================================== *)

#[global] Instance result_ret : MRet result := fun A a => Ok a.
#[global] Instance result_bind : MBind result := fun A B f m =>
  match m with Ok a => f a | Throw e => Throw e end.

(** The upstream endpoints the handler calls: the current reading, and
    the history of the last 24 hours, which the two revisions ask for
    with different URLs: the later one gives the start and the end as
    local date text, the earlier one ([History_part_000]) as epoch
    seconds. *)
Inductive endpoint : Type := RealTime | History | History_part_000.

(** What [fetch] resolves to: [response.ok], [response.status], and what
    [response.json()] settles to. *)
Record response : Type :=
  Response { ok : bool; status : Z; json : result value }.

(** The text stored under a key, as [JSON.parse] reads it. *)
Inductive blob : Type :=
| Json (v : value)
| Garbled (text : string).

Record kv_entry : Type := KvEntry { entry_blob : blob; entry_ttl : Z }.

(** [JSON.stringify] of an object or array, as the text it produces. *)
Definition JSON_stringify (v : value) : blob := Json (Js.json_roundtrip v).

(** A KV binding: whether its reads and its writes go through. *)
Record kv_namespace : Type :=
  KvNamespace { reads_succeed : bool; writes_succeed : bool }.

Inductive event : Type :=
| EvFetch (to : endpoint)
| EvKvGet (key : string)
| EvKvPut (key : string) (text : blob) (expirationTtl : Z).

(** What the platform answers: each endpoint's outcome ([Throw] when
    [fetch] itself rejects) and the clock. *)
Record platform : Type :=
  Platform { fetch : endpoint -> result response; Date_now : float }.

(** What a request can change or leave behind: the contents of the KV
    namespace and the calls made, latest last. *)
Record state : Type :=
  State { kv_data : gmap string kv_entry; calls : list event }.

Definition M (A : Type) : Type := state -> result A * state.

#[global] Instance M_ret : MRet M := fun A a st => (Ok a, st).
#[global] Instance M_bind : MBind M := fun A B f m st =>
  match m st with
  | (Ok a, st') => f a st'
  | (Throw e, st') => (Throw e, st')
  end.

(** A pure computation that may throw, run inside [M]. *)
Definition lift {A} (r : result A) : M A := fun st => (r, st).

(** [try { m } catch (_) { }] and a promise under [Promise.allSettled]:
    the outcome is observed, not propagated. *)
Definition settle {A} (m : M A) : M (result A) := fun st =>
  let '(r, st') := m st in (Ok r, st').

(** The state once a call has been logged. *)
Definition logged (e : event) (st : state) : state :=
  State (kv_data st) (calls st ++ [e]).

(** [kv.get(key, { type: 'json' })]: [null] for an absent key, the parsed
    text otherwise; throws when the read fails or the text is not JSON. *)
Definition kv_get (kv : kv_namespace) (key : string) : M value := fun st =>
  let st := logged (EvKvGet key) st in
  if reads_succeed kv then
    match kv_data st !! key with
    | None => (Ok VNull, st)
    | Some entry =>
        match entry_blob entry with
        | Json v => (Ok v, st)
        | Garbled _ => (Throw (SyntaxError "Unexpected token in JSON"), st)
        end
    end
  else (Throw (Error "KV GET failed"), st).

(** [kv.put(key, text, { expirationTtl })]. *)
Definition kv_put (kv : kv_namespace) (key : string) (text : blob) (ttl : Z)
  : M unit := fun st =>
  let st := logged (EvKvPut key text ttl) st in
  if writes_succeed kv
  then (Ok tt, State (<[key := KvEntry text ttl]> (kv_data st)) (calls st))
  else (Throw (Error "KV PUT failed"), st).

(* ===================================================================== *)
(** * The trend history store *)
(* ===================================================================== *)

(** [{ pressure: [], temperature: [] }] *)
Definition empty_history : value :=
  VObj [("pressure", VArr []); ("temperature", VArr [])].

(** [{ time: now, value: v }] *)
Definition sample (time v : float) : value :=
  VObj [("time", VNum time); ("value", VNum v)].

(** [arr.push(x)]: only an array has the method. *)
Definition push (arr x : value) : result value :=
  match arr with
  | VArr items => Ok (VArr (items ++ [x]))
  | _ => Throw (TypeError "push is not a function")
  end.

(** The elements [p] of a list with [p.time > cutoff], in order; reading
    [time] off [null] throws, and so does comparing a [time] that does
    not convert to a number. *)
Fixpoint newer_than (cutoff : float) (items : list value) : result (list value) :=
  match items with
  | [] => Ok []
  | p :: rest =>
      t ← Js.get p "time";
      newer ← Js.gt_number t cutoff;
      kept ← newer_than cutoff rest;
      Ok (if (newer : bool) then p :: kept else kept)
  end.

(** [arr.filter(p => p.time > cutoff)] *)
Definition filter_newer (cutoff : float) (arr : value) : result value :=
  match arr with
  | VArr items => kept ← newer_than cutoff items; Ok (VArr kept)
  | _ => Throw (TypeError "filter is not a function")
  end.

(** [if (raw !== null) { history[metric].push({ time: now, value: convert(raw) }) }] *)
Definition append_reading (metric : string) (convert : float -> float)
    (now : float) (raw : option float) (history : value) : result value :=
  match raw with
  | Some x =>
      pushed ← push (Js.prop history metric) (sample now (convert x));
      Ok (Js.set_prop history metric pushed)
  | None => Ok history
  end.

(** [history[metric] = history[metric].filter(p => p.time > cutoff)] *)
Definition trim_metric (metric : string) (cutoff : float) (history : value)
  : result value :=
  kept ← filter_newer cutoff (Js.prop history metric);
  Ok (Js.set_prop history metric kept).

(** The history the update starts from: the stored value when it has
    truthy [pressure] and [temperature], the empty history when it does
    not or when the read threw. *)
Definition starting_history (stored : result value) : value :=
  match stored with
  | Ok stored =>
      if Js.truthy stored && Js.truthy (Js.prop stored "pressure")
         && Js.truthy (Js.prop stored "temperature")
      then stored
      else empty_history
  | Throw _ => empty_history
  end.

(** [now - MAX_HISTORY_HOURS * 3600 * 1000] *)
Definition cutoff_at (now : float) : float :=
  (now - MAX_HISTORY_HOURS * 3600 * 1000)%float.

(** [parseEcowittValue(realtimeData?.pressure?.relative)] *)
Definition rawPressure (realtimeData : value) : result (option float) :=
  parseEcowittValue (Js.opt_get (Js.opt_get realtimeData "pressure") "relative").

(** [parseEcowittValue(realtimeData?.outdoor?.temperature)] *)
Definition rawTemp (realtimeData : value) : result (option float) :=
  parseEcowittValue (Js.opt_get (Js.opt_get realtimeData "outdoor") "temperature").

(** The part of [updateTrendHistory] between the read and the write:
    read the current values, append them, then trim both sequences. *)
Definition merge_readings (now : float) (realtimeData history : value)
  : result value :=
  let cutoff := cutoff_at now in
  pressure ← rawPressure realtimeData;
  temperature ← rawTemp realtimeData;
  history ← append_reading "pressure" inHgToHPa now pressure history;
  history ← append_reading "temperature" fToC now temperature history;
  history ← trim_metric "pressure" cutoff history;
  trim_metric "temperature" cutoff history.

Section Handler.

Variable P : platform.

(** [updateTrendHistory(kv, realtimeData)] *)
Definition updateTrendHistory (kv : kv_namespace) (realtimeData : value)
  : M value :=
  stored ← settle (kv_get kv KV_HISTORY_KEY);
  history ← lift (merge_readings (Date_now P) realtimeData (starting_history stored));
  _ ← settle (kv_put kv KV_HISTORY_KEY (JSON_stringify history) (49 * 3600));
  mret history.

(** [fetchEcowitt(url)]: the endpoint stands for the URL built for it. *)
Definition fetchEcowitt (to : endpoint) : M value := fun st =>
  let st := logged (EvFetch to) st in
  match fetch P to with
  | Throw e => (Throw e, st)
  | Ok response =>
      if ok response then (json response, st)
      else (Throw (Error ("HTTP " ++ NilZero.string_of_int (Z.to_int (status response)))), st)
  end.

End Handler.

Definition CORS_HEADERS : list (string * string) :=
  [("Access-Control-Allow-Origin", "*");
   ("Access-Control-Allow-Methods", "GET, OPTIONS");
   ("Content-Type", "application/json")].

(** A [Response]: its status, its headers, and the data its body is the
    [JSON.stringify] of. *)
Record http_response : Type :=
  HttpResponse { resp_status : Z;
                 resp_headers : list (string * string);
                 resp_data : value }.

(** [jsonResponse(data, status = 200)] *)
Definition jsonResponse (data : value) (status : Z) : http_response :=
  HttpResponse status CORS_HEADERS data.

(** [env]: the three credentials and the KV binding, when there is one. *)
Record environment : Type :=
  Environment { ECOWITT_API_KEY : value;
                ECOWITT_APPLICATION_KEY : value;
                ECOWITT_DEVICE_MAC : value;
                WEATHER_KV : option kv_namespace }.

Definition credentials_missing (env : environment) : bool :=
  negb (Js.truthy (ECOWITT_API_KEY env))
  || negb (Js.truthy (ECOWITT_APPLICATION_KEY env))
  || negb (Js.truthy (ECOWITT_DEVICE_MAC env)).

(** [historyData] and [historyError] of [onRequestGet]. *)
Definition history_outcome (historyResult : result value) : value * value :=
  match historyResult with
  | Ok v =>
      if Js.is_zero_number (Js.opt_get v "code")
      then (Js.prop v "data", VNull)
      else (VNull, VObj [("code", Js.opt_get v "code"); ("msg", Js.opt_get v "msg")])
  | Throw reason =>
      (VNull,
       VObj [("msg", Js.or_else (VStr (error_message reason)) (VStr "fetch failed"))])
  end.

Section Requests.

Variable P : platform.

(** [trendHistory]: updated through the binding, or the empty history
    when there is none. *)
Definition trend_history (env : environment) (data : value) : M value :=
  match WEATHER_KV env with
  | Some kv => updateTrendHistory P kv data
  | None => mret empty_history
  end.

(** [onRequestGet({ env })] *)
Definition onRequestGet (env : environment) : M http_response :=
  if credentials_missing env then
    mret (jsonResponse
            (VObj [("error", VStr "Server misconfiguration: missing environment variables.")])
            500)
  else
    realtimeResult ← settle (fetchEcowitt P RealTime);
    historyResult ← settle (fetchEcowitt P History);
    match realtimeResult with
    | Throw reason =>
        mret (jsonResponse
                (VObj [("error", VStr ("Failed to reach Ecowitt API: "
                                       ++ error_to_string reason))])
                502)
    | Ok realtimeData =>
        code ← lift (Js.get realtimeData "code");
        if negb (Js.is_zero_number code) then
          mret (jsonResponse
                  (VObj [("error", Js.or_else (Js.prop realtimeData "msg")
                                     (VStr "Ecowitt API returned an error."))])
                  502)
        else
          let historyData := fst (history_outcome historyResult) in
          let historyError := snd (history_outcome historyResult) in
          trendHistory ← trend_history env (Js.prop realtimeData "data");
          mret (jsonResponse
                  (VObj [("realtime", Js.prop realtimeData "data");
                         ("history", historyData);
                         ("history_error", historyError);
                         ("trends", trendHistory)])
                  200)
    end.

(** [onRequestOptions()] *)
Definition onRequestOptions : http_response :=
  HttpResponse 204 CORS_HEADERS VNull.

(** [onRequestGet] as the earlier revision of the file has it: the
    history is fetched from the URL that revision builds, and the answer
    has no [history_error] field. *)
Definition onRequestGet_part_000 (env : environment) : M http_response :=
  if credentials_missing env then
    mret (jsonResponse
            (VObj [("error", VStr "Server misconfiguration: missing environment variables.")])
            500)
  else
    realtimeResult ← settle (fetchEcowitt P RealTime);
    historyResult ← settle (fetchEcowitt P History_part_000);
    match realtimeResult with
    | Throw reason =>
        mret (jsonResponse
                (VObj [("error", VStr ("Failed to reach Ecowitt API: "
                                       ++ error_to_string reason))])
                502)
    | Ok realtimeData =>
        code ← lift (Js.get realtimeData "code");
        if negb (Js.is_zero_number code) then
          mret (jsonResponse
                  (VObj [("error", Js.or_else (Js.prop realtimeData "msg")
                                     (VStr "Ecowitt API returned an error."))])
                  502)
        else
          let historyData := fst (history_outcome historyResult) in
          trendHistory ← trend_history env (Js.prop realtimeData "data");
          mret (jsonResponse
                  (VObj [("realtime", Js.prop realtimeData "data");
                         ("history", historyData);
                         ("trends", trendHistory)])
                  200)
    end.

End Requests.

(** The state a request starts from: the namespace as found, nothing
    called yet. *)
Definition fresh (data : gmap string kv_entry) : state := State data [].

(* ===================================================================== *)
(** * Vocabulary of the specification *)
(* ===================================================================== *)

(** "The value field is missing, null, or the empty string" (a node that
    is itself absent has no value field). *)
Definition value_absent (node : value) : bool :=
  Js.nullish (Js.opt_get node "value")
  || Js.is_empty_string (Js.opt_get node "value").

(** The text of a decimal number, white space around it apart. *)
Definition numeric_text (s : string) : bool :=
  match Lexer.scan_literal (Lexer.trim_start s) with
  | Some (_, rest) => StringToNumber.all_white rest
  | None => false
  end.

(** A value field as a valid current-reading payload has it: missing,
    [null], the empty string, a number, or the text of a number. *)
Definition valid_value (v : value) : bool :=
  match v with
  | VUndefined | VNull => true
  | VNum x => negb (Number.isNaN x)
  | VStr s => Lexer.is_empty s || numeric_text s
  | _ => false
  end.

Definition valid_reading (node : value) : bool :=
  valid_value (Js.opt_get node "value").

(** The value field of a node can be read: [parseFloat] does not throw
    on it. *)
Definition readable (node : value) : bool :=
  negb (Js.to_primitive_throws (Js.opt_get node "value")).

(** Both readings of a current-reading payload can be read. *)
Definition readings_ok (realtimeData : value) : bool :=
  readable (Js.opt_get (Js.opt_get realtimeData "pressure") "relative")
  && readable (Js.opt_get (Js.opt_get realtimeData "outdoor") "temperature").

(** The call to an endpoint fails before a body is parsed: [fetch]
    rejects, the transport-level response is not successful, or its body
    is not JSON.  [e] is the reason the promise rejects with. *)
Inductive fetch_rejected (P : platform) (to : endpoint) : js_error -> Prop :=
| rejected_by_network e :
    fetch P to = Throw e -> fetch_rejected P to e
| rejected_by_status r :
    fetch P to = Ok r -> ok r = false ->
    fetch_rejected P to (Error ("HTTP " ++ NilZero.string_of_int (Z.to_int (status r))))
| rejected_by_body r e :
    fetch P to = Ok r -> ok r = true -> json r = Throw e ->
    fetch_rejected P to e.

(** The call to an endpoint succeeds at the transport level and its body
    parses to [body]. *)
Definition fetch_fulfilled (P : platform) (to : endpoint) (body : value) : Prop :=
  exists r, fetch P to = Ok r /\ ok r = true /\ json r = Ok body.

(** The current-reading fetch fails, with the reason the handler reports:
    the call is rejected, or the parsed body's status code is not 0. *)
Inductive realtime_failure (P : platform) : value -> Prop :=
| realtime_rejected e :
    fetch_rejected P RealTime e ->
    realtime_failure P (VStr ("Failed to reach Ecowitt API: " ++ error_to_string e))
| realtime_error_code body :
    fetch_fulfilled P RealTime body ->
    Js.nullish body = false ->
    Js.is_zero_number (Js.prop body "code") = false ->
    realtime_failure P
      (Js.or_else (Js.prop body "msg") (VStr "Ecowitt API returned an error.")).

(** The current-reading fetch succeeds: a parsed body with status code 0. *)
Definition realtime_success (P : platform) (body : value) : Prop :=
  fetch_fulfilled P RealTime body /\ Js.is_zero_number (Js.prop body "code") = true.


(** A sample the trim can test: not [null], with a [time] that converts
    to a number. *)
Definition sample_ok (p : value) : bool :=
  negb (Js.nullish p) && negb (Js.to_primitive_throws (Js.prop p "time")).

(** A sequence of samples as the update can process it: an array of
    samples the trim can test. *)
Definition sequence_ok (v : value) : bool :=
  match v with
  | VArr items => forallb sample_ok items
  | _ => false
  end.

Definition history_ok (h : value) : bool :=
  sequence_ok (Js.prop h "pressure") && sequence_ok (Js.prop h "temperature").

(** What the update reads from the namespace is usable: the read fails
    or lacks the two properties (and the empty history is used), or both
    are sequences of samples. *)
Definition store_usable (kv : kv_namespace) (st : state) : bool :=
  history_ok (starting_history (fst (kv_get kv KV_HISTORY_KEY st))).

(** Where the update starts from the empty history: the read fails, the
    key is absent, the text is not JSON, or the value lacks a truthy
    [pressure] or [temperature]. *)
Definition falls_back (kv : kv_namespace) (st : state) : Prop :=
  reads_succeed kv = false
  \/ kv_data st !! KV_HISTORY_KEY = None
  \/ (exists e text, kv_data st !! KV_HISTORY_KEY = Some e /\ entry_blob e = Garbled text)
  \/ (exists e v, kv_data st !! KV_HISTORY_KEY = Some e /\ entry_blob e = Json v
        /\ (Js.truthy (Js.opt_get v "pressure") = false
            \/ Js.truthy (Js.opt_get v "temperature") = false)).

(** The sample a present reading adds at [now]. *)
Definition new_samples (convert : float -> float) (now : float)
    (raw : option float) : list value :=
  match raw with
  | Some x => [sample now (convert x)]
  | None => []
  end.

(** [p.time > cutoff] evaluates to [true]. *)
Definition within_window (cutoff : float) (p : value) : bool :=
  match Js.gt_number (Js.prop p "time") cutoff with
  | Ok newer => newer
  | Throw _ => false
  end.


(** The state in which the handler, both fetches made, goes on. *)
Definition fetched (st : state) : state :=
  State (kv_data st) (calls st ++ [EvFetch RealTime; EvFetch History]).

(** The same for the earlier revision. *)
Definition fetched_part_000 (st : state) : state :=
  State (kv_data st) (calls st ++ [EvFetch RealTime; EvFetch History_part_000]).

(* ===================================================================== *)
(** * Scenarios *)
(* ===================================================================== *)

Module Scenario.

(** A current-reading payload with the two channels the handler reads. *)
Definition reading (pressure temperature : string) : value :=
  VObj [("outdoor",
         VObj [("temperature",
                VObj [("time", VStr "1700000000"); ("unit", VStr "F");
                      ("value", VStr temperature)])]);
        ("pressure",
         VObj [("relative",
                VObj [("time", VStr "1700000000"); ("unit", VStr "inHg");
                      ("value", VStr pressure)])])].

Definition success_body (data : value) : value :=
  VObj [("code", VNum 0); ("msg", VStr "success"); ("data", data)].

Definition http_ok (body : value) : result response :=
  Ok (Response true 200 (Ok body)).

Definition http_503 : result response :=
  Ok (Response false 503 (Throw (SyntaxError "Unexpected token < in JSON"))).

Definition now : float := 1700000000000.

(** Both upstream calls succeed. *)
Definition all_up : platform :=
  Platform (fun to =>
              match to with
              | RealTime => http_ok (success_body (reading "29.8" "32"))
              | History | History_part_000 => http_ok (success_body (VObj []))
              end) now.

(** The current reading arrives, the history call answers 503. *)
Definition history_down : platform :=
  Platform (fun to =>
              match to with
              | RealTime => http_ok (success_body (reading "29.8" "32"))
              | History | History_part_000 => http_503
              end) now.

(** The current-reading call answers 503. *)
Definition realtime_down : platform :=
  Platform (fun to =>
              match to with
              | RealTime => http_503
              | History | History_part_000 => http_ok (success_body (VObj []))
              end) now.

Definition healthy_kv : kv_namespace := KvNamespace true true.
Definition read_only_kv : kv_namespace := KvNamespace true false.

Definition configured : environment :=
  Environment (VStr "api-key") (VStr "app-key") (VStr "AA:BB:CC:DD:EE:FF")
    (Some healthy_kv).

Definition without_kv : environment :=
  Environment (VStr "api-key") (VStr "app-key") (VStr "AA:BB:CC:DD:EE:FF") None.


Definition stored (blob : value) : gmap string kv_entry :=
  {[ KV_HISTORY_KEY := KvEntry (Json blob) (49 * 3600) ]}.

(** A stored history with one pressure sample exactly at the cutoff and
    one a second inside the window. *)
Definition boundary_history : value :=
  VObj [("pressure", VArr [sample (cutoff_at now) 1013; sample 1699999999000 1012]);
        ("temperature", VArr [sample 1699999999000 21])].

(** The same history once the reading of [all_up] is merged at [now]. *)
Definition trimmed_history : value :=
  VObj [("pressure", VArr [sample 1699999999000 1012; sample now (inHgToHPa 29.8)]);
        ("temperature", VArr [sample 1699999999000 21; sample now (fToC 32)])].

(** The history a first reading starts. *)
Definition first_history : value :=
  VObj [("pressure", VArr [sample now (inHgToHPa 29.8)]);
        ("temperature", VArr [sample now (fToC 32)])].

(** A stored blob with no sequences in it. *)
Definition unshaped_blob : value :=
  VObj [("pressure", VNum 1); ("temperature", VNum 1)].

(** A namespace whose text under the key is cut short. *)
Definition garbled_store : gmap string kv_entry :=
  {[ KV_HISTORY_KEY := KvEntry (Garbled "{'pressure':[{'time':16999") (49 * 3600) ]}.

End Scenario.

(* ===================================================================== *)
(** * The string readers on examples *)
(* ===================================================================== *)

(** [parseFloat] reads the longest numeric prefix. *)
Example parseFloat_string_examples :
  List.map parseFloat_string
    ["29.8 inHg"; "  -3.5e2x"; ".5"; "5."; "1e"; "1e+"; "1em"; "-Infinityx"; "-0";
     "0x10"; "1.5E-3"; "n/a"; "."; "Infinit"; "--"]
  = [29.8; -350; 0.5; 5; 1; 1; 1; neg_infinity; -0;
     0; 0.0015; nan; nan; nan; nan]%float.
Proof. vm_compute. reflexivity. Qed.

(** [ToNumber] wants the whole string to be one literal. *)
Example string_to_number_examples :
  List.map StringToNumber.string_to_number
    [" 12 "; "  "; "0x1F"; "0b101 "; "0o17"; "1e3"; "12px"; "-0x10"; "1 2"; "0x"]
  = [12; 0; 31; 5; 15; 1000; nan; nan; nan; nan]%float.
Proof. vm_compute. reflexivity. Qed.

(** Decimal text is rounded to the nearest binary64, down to the
    subnormals and up to overflow. *)
Example of_decimal_examples :
  List.map parseFloat_string
    ["0.1"; "9007199254740993"; "1.7976931348623157e308"; "1e400"; "5e-324";
     "2e-324"; "2.2250738585072011e-308"]
  = [0.1; 9007199254740992; 0x1.fffffffffffffp+1023; infinity; 0x0.0000000000001p-1022;
     0; 0x0.fffffffffffffp-1022]%float.
Proof. vm_compute. reflexivity. Qed.

(* ===================================================================== *)
(** * Facts about the lexer *)
(* ===================================================================== *)

Module LexerFacts.
Import Lexer.

Lemma app_cons c s t : String c s ++ t = String c (s ++ t).
Proof. reflexivity. Qed.

Lemma digit_is_numeric c : is_digit c = true -> is_numeric_char c = true.
Proof. unfold is_numeric_char. intros ->. reflexivity. Qed.

Lemma exp_mark_is_numeric c : is_exp_mark c = true -> is_numeric_char c = true.
Proof. unfold is_numeric_char. intros ->. now rewrite orb_true_r. Qed.

Lemma exp_mark_not_digit c : is_exp_mark c = true -> is_digit c = false.
Proof.
  unfold is_exp_mark, is_digit. intros H.
  apply orb_prop in H as [H|H]; apply N.eqb_eq in H; rewrite H; reflexivity.
Qed.

Lemma dot_is_numeric c : (code c =? 46)%N = true -> is_numeric_char c = true.
Proof. unfold is_numeric_char. intros ->. now rewrite !orb_true_r. Qed.

Lemma dot_not_digit c : (code c =? 46)%N = true -> is_digit c = false.
Proof. unfold is_digit. intros H. apply N.eqb_eq in H. rewrite H. reflexivity. Qed.

(** A tail that starts with no character of a literal, and a tail
    without digits, cannot carry a literal further. *)
Lemma non_numeric_start t :
  match t with String c _ => is_numeric_char c = false | EmptyString => True end ->
  non_numeric_tail t = true.
Proof.
  destruct t as [|c t]; [reflexivity|]. cbn [non_numeric_tail]. intros H. rewrite H.
  destruct (is_digit c) eqn:E; [|reflexivity].
  apply digit_is_numeric in E. congruence.
Qed.

Lemma no_digits_tail t : no_digits t = true -> non_numeric_tail t = true.
Proof.
  induction t as [|c t IH]; [reflexivity|]. cbn [non_numeric_tail no_digits].
  intros H. apply andb_prop in H as [Hc Ht]. apply negb_true_iff in Hc. rewrite Hc.
  destruct (is_numeric_char c); auto.
Qed.

(** The tail starts with no digit. *)
Lemma tail_span_digits t : non_numeric_tail t = true -> span_digits t = (EmptyString, t).
Proof.
  destruct t as [|c t]; [reflexivity|]. cbn [non_numeric_tail span_digits].
  destruct (is_digit c); [discriminate|reflexivity].
Qed.

(** Past a numeric character that is no digit, it is such a tail still. *)
Lemma tail_step c t :
  non_numeric_tail (String c t) = true -> is_numeric_char c = true ->
  non_numeric_tail t = true.
Proof.
  cbn [non_numeric_tail]. destruct (is_digit c); [discriminate|].
  intros H Hn. now rewrite Hn in H.
Qed.

Lemma tail_scan_sign t neg r :
  non_numeric_tail t = true -> scan_sign t = (neg, r) -> non_numeric_tail r = true.
Proof.
  destruct t as [|c t]; simpl scan_sign; intros Ht H; [inversion H; reflexivity|].
  destruct (code c =? 45)%N eqn:E1; [|destruct (code c =? 43)%N eqn:E2];
    inversion H; subst; try assumption;
    apply (tail_step c); try assumption; unfold is_numeric_char;
    rewrite ?E1, ?E2, ?orb_true_r; reflexivity.
Qed.

(** No exponent starts in such a tail. *)
Lemma tail_scan_exponent t : non_numeric_tail t = true -> scan_exponent t = (0, t).
Proof.
  destruct t as [|c t]; intros Ht; [reflexivity|]. cbn [scan_exponent].
  destruct (is_exp_mark c) eqn:E; [|reflexivity].
  pose proof (tail_step _ _ Ht (exp_mark_is_numeric _ E)) as Ht'.
  destruct (scan_sign t) as [neg r1] eqn:Es.
  rewrite (tail_span_digits _ (tail_scan_sign _ _ _ Ht' Es)). reflexivity.
Qed.

Lemma span_digits_app s t ds r :
  span_digits s = (ds, r) -> non_numeric_tail t = true ->
  span_digits (s ++ t) = (ds, r ++ t).
Proof.
  revert ds r. induction s as [|c s IH]; intros ds r H Ht.
  - inversion H; subst. apply tail_span_digits, Ht.
  - rewrite app_cons. cbn [span_digits] in *. destruct (is_digit c).
    + destruct (span_digits s) as [ds' r'] eqn:E. inversion H; subst.
      rewrite (IH _ _ eq_refl Ht). reflexivity.
    + inversion H; subst. reflexivity.
Qed.

Lemma scan_sign_app c s t neg r :
  scan_sign (String c s) = (neg, r) -> scan_sign (String c s ++ t) = (neg, r ++ t).
Proof.
  rewrite app_cons. cbn [scan_sign].
  destruct (code c =? 45)%N; [|destruct (code c =? 43)%N]; intros H; inversion H; reflexivity.
Qed.

(** The exponent read from [s] is the one read from [s ++ t]. *)
Lemma scan_exponent_app s t e r :
  scan_exponent s = (e, r) -> non_numeric_tail t = true ->
  exists r', scan_exponent (s ++ t) = (e, r').
Proof.
  destruct s as [|c s]; intros H Ht.
  - inversion H; subst. change (EmptyString ++ t) with t.
    rewrite (tail_scan_exponent _ Ht). eauto.
  - rewrite app_cons. cbn [scan_exponent] in *.
    destruct (is_exp_mark c); [|inversion H; subst; eauto].
    destruct s as [|d s].
    + (* the mark ends [s]: no digit follows it in [t] either *)
      simpl in H. inversion H; subst.
      change (EmptyString ++ t) with t.
      destruct (scan_sign t) as [neg r1] eqn:Es.
      rewrite (tail_span_digits _ (tail_scan_sign _ _ _ Ht Es)). simpl. eauto.
    + destruct (scan_sign (String d s)) as [neg r1] eqn:Es.
      rewrite (scan_sign_app _ _ t _ _ Es).
      destruct (span_digits r1) as [ds r2] eqn:Ed.
      rewrite (span_digits_app _ _ _ _ Ed Ht).
      destruct (is_empty ds); inversion H; subst; eauto.
Qed.

Lemma strip_prefix_app w s t r :
  strip_prefix w s = Some r -> strip_prefix w (s ++ t) = Some (r ++ t).
Proof.
  revert s. induction w as [|a w IH]; intros s H.
  - destruct s; simpl in *; inversion H; subst; reflexivity.
  - destruct s as [|c s]; [discriminate|]. rewrite app_cons.
    cbn [strip_prefix] in *.
    destruct (Ascii.eqb a c); [apply IH; assumption | discriminate].
Qed.

(** A string that starts a decimal number does not start [Infinity]. *)
Lemma strip_Infinity_first c s :
  is_digit c = true \/ (code c =? 46)%N = true ->
  strip_prefix "Infinity" (String c s) = None.
Proof.
  intros H. cbn [strip_prefix]. destruct (Ascii.eqb "I" c) eqn:E; [|reflexivity].
  apply Ascii.eqb_eq in E. subst c. destruct H as [H|H]; vm_compute in H; discriminate.
Qed.

Lemma span_digits_head s ds r :
  span_digits s = (ds, r) ->
  match s with
  | String c _ => if is_digit c then is_empty ds = false else ds = EmptyString /\ r = s
  | EmptyString => ds = EmptyString /\ r = EmptyString
  end.
Proof.
  destruct s as [|c s]; simpl; intros H; [inversion H; auto|].
  destruct (is_digit c); [|inversion H; auto].
  destruct (span_digits s); inversion H; reflexivity.
Qed.

(** What a decimal number starts with. *)
Lemma scan_unsigned_decimal_head s int frac e r :
  scan_unsigned s = Some (MDecimal int frac e, r) ->
  exists c s', s = String c s' /\ (is_digit c = true \/ (code c =? 46)%N = true).
Proof.
  unfold scan_unsigned. destruct (strip_prefix "Infinity" s); [discriminate|].
  destruct (span_digits s) as [i r1] eqn:E. intros H.
  pose proof (span_digits_head _ _ _ E) as Hh.
  destruct s as [|c s']; [destruct Hh; subst; simpl in H; discriminate|].
  exists c, s'. split; [reflexivity|].
  destruct (is_digit c); [auto|]. destruct Hh as [-> ->]. simpl in H.
  destruct (code c =? 46)%N; [auto | discriminate].
Qed.

Lemma scan_unsigned_Infinity s r :
  scan_unsigned s = Some (MInfinity, r) -> strip_prefix "Infinity" s = Some r.
Proof.
  unfold scan_unsigned.
  destruct (strip_prefix "Infinity" s); [intros H; inversion H; reflexivity|].
  destruct (span_digits s) as [i r1]. destruct (strip_dot r1) as [r2|].
  - destruct (span_digits r2) as [f r3].
    destruct (is_empty i && is_empty f); [discriminate|].
    destruct (scan_exponent r3); discriminate.
  - destruct (is_empty i); [discriminate|].
    destruct (scan_exponent r1); discriminate.
Qed.

(** What follows the digits of [s ++ t], with or without a point. *)
Lemma strip_dot_app c r t : strip_dot (String c r ++ t) = option_map (fun u => u ++ t) (strip_dot (String c r)).
Proof. rewrite app_cons. cbn [strip_dot]. destruct (code c =? 46)%N; reflexivity. Qed.

(** The magnitude read from [s] is the one read from [s ++ t]. *)
Lemma scan_unsigned_app s t m r :
  scan_unsigned s = Some (m, r) -> non_numeric_tail t = true ->
  exists r', scan_unsigned (s ++ t) = Some (m, r').
Proof.
  intros H Ht. destruct m as [|int frac e].
  - apply scan_unsigned_Infinity in H. unfold scan_unsigned.
    rewrite (strip_prefix_app _ _ t _ H). eauto.
  - destruct (scan_unsigned_decimal_head _ _ _ _ _ H) as (c & s' & -> & Hc).
    unfold scan_unsigned in *.
    rewrite app_cons, (strip_Infinity_first c (s' ++ t) Hc), <- app_cons.
    rewrite (strip_Infinity_first c s' Hc) in H.
    destruct (span_digits (String c s')) as [i r1] eqn:E.
    rewrite (span_digits_app _ _ _ _ E Ht).
    destruct r1 as [|d r1].
    + (* the digits end [s] *)
      change (EmptyString ++ t) with t. simpl in H.
      destruct (is_empty i) eqn:Ei; [discriminate|]. inversion H; subst.
      destruct (strip_dot t) as [t'|] eqn:Ed.
      * assert (Ht' : non_numeric_tail t' = true).
        { destruct t as [|d t0]; [discriminate|]. cbn [strip_dot] in Ed.
          destruct (code d =? 46)%N eqn:E46; [|discriminate]. inversion Ed; subst.
          apply (tail_step d); [assumption | apply dot_is_numeric, E46]. }
        rewrite (tail_span_digits _ Ht'), (tail_scan_exponent _ Ht'). simpl. eauto.
      * rewrite (tail_scan_exponent _ Ht). eauto.
    + rewrite strip_dot_app. destruct (strip_dot (String d r1)) as [r2|]; cbn [option_map].
      * destruct (span_digits r2) as [f r3] eqn:Ef.
        rewrite (span_digits_app _ _ _ _ Ef Ht).
        destruct (is_empty i && is_empty f); [discriminate|].
        destruct (scan_exponent r3) as [e0 r4] eqn:Ee.
        destruct (scan_exponent_app _ t _ _ Ee Ht) as [r' ->].
        inversion H; subst. eauto.
      * destruct (is_empty i); [discriminate|].
        destruct (scan_exponent (String d r1)) as [e0 r4] eqn:Ee.
        destruct (scan_exponent_app _ t _ _ Ee Ht) as [r' Hr'].
        rewrite Hr'. inversion H; subst. eauto.
Qed.

Lemma scan_literal_nonempty s x : scan_literal s = Some x -> is_empty s = false.
Proof. destruct s; [discriminate | reflexivity]. Qed.

(** The literal read from [s] is the one read from [s ++ t]. *)
Lemma scan_literal_app s t l r :
  scan_literal s = Some (l, r) -> non_numeric_tail t = true ->
  exists r', scan_literal (s ++ t) = Some (l, r').
Proof.
  unfold scan_literal. intros H Ht.
  destruct s as [|c s]; [discriminate|].
  destruct (scan_sign (String c s)) as [neg r0] eqn:Es.
  rewrite (scan_sign_app _ _ t _ _ Es).
  destruct (scan_unsigned r0) as [[m r1]|] eqn:Eu; [|discriminate].
  destruct (scan_unsigned_app _ _ _ _ Eu Ht) as [r' ->]. inversion H; subst. eauto.
Qed.

Lemma trim_start_app s t :
  is_empty (trim_start s) = false -> trim_start (s ++ t) = trim_start s ++ t.
Proof.
  induction s as [|c s IH]; simpl; [discriminate|].
  destruct (is_white c); auto.
Qed.

(** Extending a string keeps a literal at its start (a longer one,
    possibly). *)
Lemma scan_unsigned_extend s t x :
  scan_unsigned s = Some x -> exists y, scan_unsigned (s ++ t) = Some y.
Proof.
  destruct x as [m r]. intros H. destruct m as [|int frac e].
  - apply scan_unsigned_Infinity in H. unfold scan_unsigned.
    rewrite (strip_prefix_app _ _ t _ H). eauto.
  - destruct (scan_unsigned_decimal_head _ _ _ _ _ H) as (c & s' & -> & Hc).
    unfold scan_unsigned in *. rewrite app_cons.
    rewrite strip_Infinity_first in * by assumption.
    cbn [span_digits] in *.
    destruct (is_digit c) eqn:Ed.
    + clear H. destruct (span_digits (s' ++ t)) as [i' r1'].
      destruct (strip_dot r1') as [r2'|]; [destruct (span_digits r2')|]; simpl;
        destruct (scan_exponent _); eauto.
    + destruct Hc as [Hc|Hc]; [discriminate|]. cbn [strip_dot] in *. rewrite Hc in *.
      destruct (span_digits s') as [f r3] eqn:Ef. simpl in H.
      pose proof (span_digits_head _ _ _ Ef) as Hh.
      destruct s' as [|d s'']; [destruct Hh; subst; discriminate|].
      rewrite app_cons. cbn [span_digits].
      destruct (is_digit d).
      * clear H. destruct (span_digits (s'' ++ t)) as [f' r3']. simpl.
        destruct (scan_exponent r3'); eauto.
      * destruct Hh; subst. discriminate.
Qed.

Lemma scan_literal_extend s t x :
  scan_literal s = Some x -> exists y, scan_literal (s ++ t) = Some y.
Proof.
  unfold scan_literal. intros H.
  destruct s as [|c s]; [discriminate|]. rewrite app_cons. cbn [scan_sign] in *.
  assert (Hu : forall r, (exists x, scan_unsigned r = Some x) ->
                         exists y, scan_unsigned (r ++ t) = Some y).
  { intros r [y Hy]. eapply scan_unsigned_extend, Hy. }
  destruct (code c =? 45)%N; [|destruct (code c =? 43)%N].
  - destruct (scan_unsigned s) as [[m r]|] eqn:E; [|discriminate].
    destruct (Hu s) as [[m' r'] ->]; eauto.
  - destruct (scan_unsigned s) as [[m r]|] eqn:E; [|discriminate].
    destruct (Hu s) as [[m' r'] ->]; eauto.
  - destruct (scan_unsigned (String c s)) as [[m r]|] eqn:E; [|discriminate].
    destruct (Hu (String c s)) as [[m' r'] Hy]; eauto.
    rewrite app_cons in Hy. rewrite Hy. eauto.
Qed.
End LexerFacts.

(* ===================================================================== *)
(** * Facts about values and numbers *)
(* ===================================================================== *)

Module JsFacts.
Import Js.

Lemma lookup_set_field_eq k x fs : lookup_field k (set_field k x fs) = Some x.
Proof.
induction fs as [|[k' v] fs IH]; simpl.
- now rewrite String.eqb_refl.
- destruct (String.eqb k k') eqn:E; simpl; rewrite E; auto.
Qed.

Lemma lookup_set_field_ne k k' x fs :
k <> k' -> lookup_field k' (set_field k x fs) = lookup_field k' fs.
Proof.
intros Hne. induction fs as [|[k0 v] fs IH]; simpl.
- destruct (String.eqb k' k) eqn:E; [|reflexivity].
  apply String.eqb_eq in E. congruence.
- destruct (String.eqb k k0) eqn:E; simpl.
  + apply String.eqb_eq in E. subst k0.
    destruct (String.eqb k' k) eqn:E'; [|reflexivity].
    apply String.eqb_eq in E'. congruence.
  + destruct (String.eqb k' k0); auto.
Qed.

(** Only an object has a property that is an array. *)
Lemma prop_array_object h k l : prop h k = VArr l -> exists fs, h = VObj fs.
Proof. destruct h; simpl; try discriminate. eauto. Qed.

Lemma prop_set_prop_eq fs k x : prop (set_prop (VObj fs) k x) k = x.
Proof. simpl. now rewrite lookup_set_field_eq. Qed.

Lemma prop_set_prop_ne h k k' x : k <> k' -> prop (set_prop h k x) k' = prop h k'.
Proof. intros Hne. destruct h; simpl; try reflexivity. now rewrite lookup_set_field_ne. Qed.

Lemma prop_set_field_ne fs k k' x :
k <> k' -> prop (VObj (set_field k x fs)) k' = prop (VObj fs) k'.
Proof. apply (prop_set_prop_ne (VObj fs)). Qed.

Lemma prop_set_field_eq fs k x : prop (VObj (set_field k x fs)) k = x.
Proof. apply prop_set_prop_eq. Qed.

End JsFacts.

Module NumberFacts.

Lemma shr_1_nonneg mrs : 0 <= shr_m mrs -> 0 <= shr_m (shr_1 mrs).
Proof.
destruct mrs as [m r s]; simpl.
destruct m as [|p|p]; simpl; try lia; destruct p; simpl; lia.
Qed.

Lemma iter_shr_1_nonneg p : forall mrs, 0 <= shr_m mrs -> 0 <= shr_m (SpecFloat.iter_pos shr_1 p mrs).
Proof. induction p; simpl; intros mrs H; auto using shr_1_nonneg. Qed.

Lemma shr_fexp_nonneg m e l :
0 <= m -> 0 <= shr_m (fst (shr_fexp prec emax m e l)).
Proof.
intros H. unfold shr_fexp, shr.
assert (H0 : 0 <= shr_m (shr_record_of_loc m l)).
{ destruct l as [|[]]; simpl; exact H. }
destruct (_ - e); simpl; auto using iter_shr_1_nonneg.
Qed.

Lemma round_nearest_even_nonneg m l : 0 <= m -> 0 <= round_nearest_even m l.
Proof.
intros H. destruct l as [|[]]; simpl; try lia. destruct (Z.even m); lia.
Qed.

(** Rounding a non-negative mantissa never yields [NaN]. *)
Lemma binary_round_aux_not_nan sx mx ex lx :
0 <= mx -> binary_round_aux prec emax sx mx ex lx <> S754_nan.
Proof.
intros H. unfold binary_round_aux.
pose proof (shr_fexp_nonneg mx ex lx H) as H1.
destruct (shr_fexp prec emax mx ex lx) as [mrs' e']. simpl in H1.
pose proof (shr_fexp_nonneg _ e' loc_Exact
              (round_nearest_even_nonneg _ (loc_of_shr_record mrs') H1)) as H2.
destruct (shr_fexp prec emax _ e' loc_Exact) as [mrs'' e'']. simpl in H2.
destruct (shr_m mrs''); try lia; try discriminate.
destruct (_ <=? _); discriminate.
Qed.

Lemma binary_round_not_nan sx mx ex : binary_round prec emax sx mx ex <> S754_nan.
Proof.
unfold binary_round. destruct (shl_align _ _ _) as [mz ez].
apply binary_round_aux_not_nan. lia.
Qed.

Lemma SFeqb_refl x : x <> S754_nan -> SFeqb x x = true.
Proof.
intros H. unfold SFeqb, SFcompare.
destruct x as [[]|[]| |[] m e]; try reflexivity; try congruence;
  rewrite Z.compare_refl, Pos.compare_cont_refl; reflexivity.
Qed.

Lemma SFltb_irrefl x : SFltb x x = false.
Proof.
unfold SFltb, SFcompare.
destruct x as [[]|[]| |[] m e]; try reflexivity;
  rewrite Z.compare_refl, Pos.compare_cont_refl; reflexivity.
Qed.

(** No number is below itself. *)
Lemma ltb_irrefl (x : float) : PrimFloat.ltb x x = false.
Proof. rewrite FloatAxioms.ltb_spec. apply SFltb_irrefl. Qed.

Lemma SFldexp_not_nan x e : x <> S754_nan -> SFldexp prec emax x e <> S754_nan.
Proof.
destruct x; simpl; auto. intros _. apply binary_round_not_nan.
Qed.

Lemma binary_normalize_not_nan m e sz : binary_normalize prec emax m e sz <> S754_nan.
Proof.
destruct m; simpl; [discriminate| |]; apply binary_round_not_nan.
Qed.

Lemma Prim2SF_ldexp_not_nan n e :
Prim2SF (Z.ldexp (of_uint63 n) e) <> S754_nan.
Proof.
pose proof (Z_ldexp_spec (of_uint63 n) e) as H1.
pose proof (FloatAxioms.of_uint63_spec n) as H2.
intros Hc. rewrite Hc, H2 in H1. symmetry in H1. revert H1.
apply SFldexp_not_nan, binary_normalize_not_nan.
Qed.

Lemma SF2Prim_not_nan x : x <> S754_nan -> Number.isNaN (SF2Prim x) = false.
Proof.
intros H. unfold Number.isNaN, is_nan.
pose proof (FloatAxioms.eqb_spec (SF2Prim x) (SF2Prim x)) as He.
assert (Hn : Prim2SF (SF2Prim x) <> S754_nan).
{ destruct x as [[]|[]| |s m e]; try (vm_compute; discriminate); try congruence.
  pose proof (Prim2SF_ldexp_not_nan (Uint63.of_Z (Z.pos m)) e) as Hl.
  unfold SF2Prim. destruct s; [|exact Hl].
  intros Hc.
  pose proof (FloatAxioms.opp_spec (Z.ldexp (of_uint63 (Uint63.of_Z (Z.pos m))) e)) as Ho.
  rewrite Hc in Ho.
  destruct (Prim2SF (Z.ldexp _ e)); simpl in Ho; congruence. }
rewrite (SFeqb_refl _ Hn) in He. rewrite He. reflexivity.
Qed.

Lemma of_decimal_not_nan neg m e : Number.isNaN (Number.of_decimal neg m e) = false.
Proof.
apply SF2Prim_not_nan. unfold Number.of_decimal_SF.
destruct m as [|p|p]; try discriminate.
destruct e as [|k|k].
- apply binary_round_aux_not_nan. lia.
- apply binary_round_aux_not_nan. pose proof (Z.pow_nonneg 10 (Z.pos k)). lia.
- set (d := 10 ^ Z.pos k). set (s := Z.max 0 _).
  assert (Hd : 0 < d) by (apply Z.pow_pos_nonneg; lia).
  assert (Hm : 0 <= Z.shiftl (Z.pos p) s) by (apply Z.shiftl_nonneg; lia).
  pose proof (Z.div_pos _ _ Hm Hd) as Hq.
  unfold Z.div in Hq. destruct (Z.div_eucl _ d) as [q r]. simpl in Hq.
  apply binary_round_aux_not_nan, Hq.
Qed.

Lemma MV_not_nan l : Number.isNaN (Lexer.MV l) = false.
Proof.
destruct l as [neg [|int frac e]]; unfold Lexer.MV; simpl.
- destruct neg; reflexivity.
- apply of_decimal_not_nan.
Qed.

End NumberFacts.

Import LexerFacts JsFacts NumberFacts.

(* ===================================================================== *)
(** * Unit conversion *)
(* ===================================================================== *)

(** C9.  The conversions are the stated formulas in binary64 arithmetic:
    [fToC f] is [(f - 32) * 5 / 9], with [fToC 32 = 0], and [inHgToHPa x]
    is [x * 33.8639], with [inHgToHPa 1 = 33.8639], the constant being the
    number its decimal text denotes.  Both are functions from numbers to
    numbers, defined everywhere. *)
Theorem unit_conversions_exact :
  (forall f, fToC f = ((f - 32) * 5 / 9)%float)
  /\ fToC 32 = 0%float
  /\ (forall inHg, inHgToHPa inHg = (inHg * 33.8639)%float)
  /\ inHgToHPa 1 = 33.8639%float
  /\ parseFloat_string "33.8639" = 33.8639%float.
Proof. repeat split; vm_compute; reflexivity. Qed.

(** The grouping of the Fahrenheit formula matters in binary64. *)
Example fToC_grouping : fToC 451 <> ((451 - 32) * (5 / 9))%float.
Proof.
  intros H. apply (f_equal (fun x => PrimFloat.eqb x (fToC 451))) in H.
  vm_compute in H. discriminate.
Qed.

(* ===================================================================== *)
(** * The upstream value parser *)
(* ===================================================================== *)

(** [parseFloat] of a string is a number exactly when a literal starts
    it, white space apart. *)
Lemma parseFloat_string_number s :
  Number.isNaN (parseFloat_string s) = false
  <-> exists l r, Lexer.scan_literal (Lexer.trim_start s) = Some (l, r).
Proof.
  unfold parseFloat_string.
  destruct (Lexer.scan_literal (Lexer.trim_start s)) as [[l r]|]; split.
  - eauto.
  - intros _. apply MV_not_nan.
  - discriminate.
  - intros (l & r & H). discriminate.
Qed.

(** A tail that cannot carry a literal further, after a numeric prefix,
    does not change what [parseFloat] reads. *)
Lemma parseFloat_string_app p t :
  Number.isNaN (parseFloat_string p) = false ->
  Lexer.non_numeric_tail t = true ->
  parseFloat_string (p ++ t) = parseFloat_string p.
Proof.
  intros Hp Ht. apply parseFloat_string_number in Hp as (l & r & Hs).
  unfold parseFloat_string.
  rewrite trim_start_app by (eapply scan_literal_nonempty, Hs).
  destruct (scan_literal_app _ t _ _ Hs Ht) as [r' ->]. rewrite Hs. reflexivity.
Qed.

(** A string with a numeric prefix reads as a number, however it goes on. *)
Lemma parseFloat_string_extend p t :
  Number.isNaN (parseFloat_string p) = false ->
  Number.isNaN (parseFloat_string (p ++ t)) = false.
Proof.
  intros Hp. apply parseFloat_string_number in Hp as (l & r & Hs).
  apply parseFloat_string_number.
  rewrite trim_start_app by (eapply scan_literal_nonempty, Hs).
  destruct (scan_literal_extend _ t _ Hs) as [[l' r'] H]. eauto.
Qed.

Lemma append_empty_r s : s ++ EmptyString = s.
Proof. induction s as [|c s IH]; [reflexivity|]. now rewrite app_cons, IH. Qed.

(** [parseEcowittValue] on a node whose value is a string. *)
Lemma parseEcowittValue_string node s :
  Js.prop node "value" = VStr s ->
  parseEcowittValue node
  = Ok (if Number.isNaN (parseFloat_string s) then None else Some (parseFloat_string s)).
Proof.
  intros H. unfold parseEcowittValue.
  assert (Hn : Js.nullish node = false) by (destruct node; simpl in *; congruence).
  rewrite Hn, H. simpl. destruct s; reflexivity.
Qed.

(** C10.  For a node whose value field is a string: when the string is
    a prefix [p] that [parseFloat] reads as a number, followed by trailing
    non-numeric characters [t] (no digit comes in [t] before a character
    that no literal is made of: so for every [t] that starts with such a
    character, as in "29.8 inHg", and every [t] without digits, as in
    "1em"), [parseEcowittValue] returns the number [p] denotes, not
    absent.  And it returns absent exactly when no prefix of the string
    reads as a number. *)
Theorem parseEcowittValue_numeric_prefix node s :
  Js.prop node "value" = VStr s ->
  (forall p t, s = p ++ t ->
     Number.isNaN (parseFloat_string p) = false ->
     Lexer.non_numeric_tail t = true ->
     parseEcowittValue node = Ok (Some (parseFloat_string p)))
  /\ (parseEcowittValue node = Ok None
      <-> forall p t, s = p ++ t -> Number.isNaN (parseFloat_string p) = true).
Proof.
  intros H. rewrite (parseEcowittValue_string _ _ H). split.
  - intros p t -> Hp Ht. rewrite (parseFloat_string_app _ _ Hp Ht), Hp. reflexivity.
  - split.
    + intros Hnone p t -> .
      destruct (Number.isNaN (parseFloat_string p)) eqn:Ep; [reflexivity|].
      rewrite (parseFloat_string_extend _ t Ep) in Hnone. discriminate.
    + intros Hall. rewrite (Hall s EmptyString (eq_sym (append_empty_r s))). reflexivity.
Qed.

Lemma parseEcowittValue_numeric_prefix_witness :
  Js.prop (VObj [("unit", VStr "inHg"); ("value", VStr "29.8 inHg")]) "value"
  = VStr "29.8 inHg"
  /\ Number.isNaN (parseFloat_string "29.8") = false
  /\ Lexer.non_numeric_tail " inHg" = true
  /\ parseEcowittValue (VObj [("unit", VStr "inHg"); ("value", VStr "29.8 inHg")])
     = Ok (Some (parseFloat_string "29.8"))
  /\ parseFloat_string "29.8" = 29.8%float.
Proof.
  split; [reflexivity|]. split; [reflexivity|]. split; [reflexivity|].
  split; [|vm_compute; reflexivity].
  exact (proj1 (parseEcowittValue_numeric_prefix
                  (VObj [("unit", VStr "inHg"); ("value", VStr "29.8 inHg")])
                  "29.8 inHg" eq_refl)
           "29.8" " inHg" eq_refl eq_refl eq_refl).
Defined.

(** Outside the valid payloads: a value field that is present and is
    not the text of a number reads as absent, and one that is an object
    with a [toString] of its own makes [parseFloat] throw. *)
Example parseEcowittValue_invalid_values :
  value_absent (VObj [("unit", VStr "inHg"); ("value", VStr "n/a")]) = false
  /\ valid_reading (VObj [("unit", VStr "inHg"); ("value", VStr "n/a")]) = false
  /\ parseEcowittValue (VObj [("unit", VStr "inHg"); ("value", VStr "n/a")]) = Ok None
  /\ valid_reading (VObj [("value", VObj [("toString", VNum 1)])]) = false
  /\ parseEcowittValue (VObj [("value", VObj [("toString", VNum 1)])])
     = Throw Js.cannot_convert
  /\ parseEcowittValue (VObj [("value", VArr [VStr "29.8"; VObj [("toString", VNum 1)]])])
     = Throw Js.cannot_convert
  /\ parseEcowittValue (VObj [("value", VArr [VStr "29.8"; VObj [("valueOf", VNum 1)]])])
     = Ok (Some 29.8%float).
Proof. repeat split; vm_compute; reflexivity. Qed.

(** What [parseEcowittValue] does, in full: it throws exactly when
    [parseFloat] of the value field does, and otherwise returns absent
    exactly when the field is missing, null or the empty string, or what
    [parseFloat] reads of it is [NaN]. *)
Lemma parseEcowittValue_cases node :
  parseEcowittValue node
  = if readable node
    then Ok (if value_absent node
                || Number.isNaN (Js.parseFloat_value (Js.opt_get node "value"))
             then None
             else Some (Js.parseFloat_value (Js.opt_get node "value")))
    else Throw Js.cannot_convert.
Proof.
  unfold parseEcowittValue, readable, value_absent, Js.opt_get, Js.parseFloat.
  destruct (Js.nullish node); [reflexivity|].
  destruct (Js.prop node "value") as [| |b|x|s|items|fields]; try reflexivity.
  - destruct s; reflexivity.
  - destruct (Js.to_primitive_throws (VArr items)); reflexivity.
  - destruct (Js.to_primitive_throws (VObj fields)); reflexivity.
Qed.

(** The text of a number reads as a number. *)
Lemma numeric_text_parses s :
  numeric_text s = true -> Number.isNaN (parseFloat_string s) = false.
Proof.
  unfold numeric_text. intros H. apply parseFloat_string_number.
  destruct (Lexer.scan_literal (Lexer.trim_start s)) as [[l r]|]; [eauto | discriminate].
Qed.

(** C3.  On a valid current-reading payload (the value field, when the
    node has one, is a number or the text of a number, when it is not
    null or the empty string), [parseEcowittValue] does not throw, and it
    returns absent if and only if the value field is missing, null or the
    empty string; otherwise it returns the number [parseFloat] reads,
    which is never [NaN].  A reading of 0, as text or as a number, is
    returned as 0, not as absent. *)
Theorem parseEcowittValue_valid_payload node :
  valid_reading node = true ->
  (parseEcowittValue node = Ok None <-> value_absent node = true)
  /\ (value_absent node = false ->
      exists n, parseEcowittValue node = Ok (Some n)
                /\ Js.parseFloat (Js.opt_get node "value") = Ok n
                /\ Number.isNaN n = false)
  /\ parseEcowittValue (VObj [("value", VStr "0")]) = Ok (Some 0%float)
  /\ parseEcowittValue (VObj [("value", VNum 0)]) = Ok (Some 0%float).
Proof.
  intros Hv. rewrite parseEcowittValue_cases.
  unfold valid_reading in Hv. unfold readable, value_absent, Js.parseFloat.
  assert (Hnum : Js.to_primitive_throws (Js.opt_get node "value") = false
                 /\ (Js.nullish (Js.opt_get node "value")
                     || Js.is_empty_string (Js.opt_get node "value") = false ->
                     Number.isNaN (Js.parseFloat_value (Js.opt_get node "value")) = false)).
  { destruct (Js.opt_get node "value") as [| |b|x|s| |]; simpl in *;
      try discriminate; (split; [reflexivity|]); try discriminate.
    - intros _. unfold Number.reparse, Number.isNaN in *.
      destruct (PrimFloat.is_zero x); [reflexivity|].
      destruct (PrimFloat.is_nan x); [discriminate | reflexivity].
    - destruct s as [|c s]; [discriminate|]. intros _. simpl in Hv.
      now apply numeric_text_parses. }
  destruct Hnum as [-> Hnum]. cbn [negb].
  split; [|split; [|split; vm_compute; reflexivity]].
  - destruct (_ || _) eqn:Ea; cbn [orb]; [split; reflexivity|].
    rewrite (Hnum eq_refl). split; discriminate.
  - intros Ha. rewrite Ha in *. cbn [orb]. rewrite (Hnum eq_refl). eauto.
Qed.

Lemma parseEcowittValue_valid_payload_witness :
  valid_reading (VObj [("time", VStr "1700000000"); ("unit", VStr "inHg");
                       ("value", VStr "29.8")]) = true
  /\ value_absent (VObj [("time", VStr "1700000000"); ("unit", VStr "inHg");
                         ("value", VStr "29.8")]) = false
  /\ parseEcowittValue (VObj [("time", VStr "1700000000"); ("unit", VStr "inHg");
                              ("value", VStr "29.8")]) = Ok (Some 29.8%float)
  /\ valid_reading (VObj [("unit", VStr "inHg"); ("value", VStr EmptyString)]) = true
  /\ parseEcowittValue (VObj [("unit", VStr "inHg"); ("value", VStr EmptyString)]) = Ok None.
Proof.
  split; [reflexivity|]. split; [reflexivity|]. split; [|split; [reflexivity|]].
  - destruct (proj1 (proj2 (parseEcowittValue_valid_payload
                              (VObj [("time", VStr "1700000000"); ("unit", VStr "inHg");
                                     ("value", VStr "29.8")]) eq_refl)) eq_refl)
      as (n & -> & Hn & _).
    vm_compute in Hn. injection Hn as <-. reflexivity.
  - apply (proj1 (parseEcowittValue_valid_payload
                    (VObj [("unit", VStr "inHg"); ("value", VStr EmptyString)]) eq_refl)).
    reflexivity.
Defined.

(* ===================================================================== *)
(** * The trend history store *)
(* ===================================================================== *)

Module HistoryFacts.

(** A value whose conversion does not throw compares as its number. *)
Lemma gt_number_value t cutoff :
Js.to_primitive_throws t = false ->
Js.gt_number t cutoff = Ok (PrimFloat.ltb cutoff (Js.to_number_value t)).
Proof. unfold Js.gt_number, Js.to_number. intros ->. reflexivity. Qed.

Lemma gt_number_throws t cutoff :
Js.to_primitive_throws t = true -> Js.gt_number t cutoff = Throw Js.cannot_convert.
Proof. unfold Js.gt_number, Js.to_number. intros ->. reflexivity. Qed.

(** The test of the trim returns on a sample it can test. *)
Lemma sample_ok_test cutoff p :
sample_ok p = true ->
Js.get p "time" = Ok (Js.prop p "time")
/\ Js.gt_number (Js.prop p "time") cutoff = Ok (within_window cutoff p).
Proof.
unfold sample_ok, within_window, Js.get. intros H. apply andb_prop in H as [Hn Ht].
destruct (Js.nullish p); [discriminate|].
destruct (Js.to_primitive_throws (Js.prop p "time")) eqn:E; [discriminate|].
rewrite (gt_number_value _ cutoff E). auto.
Qed.

(** A sample inside the window passed the test. *)
Lemma within_window_test cutoff p :
within_window cutoff p = true -> Js.gt_number (Js.prop p "time") cutoff = Ok true.
Proof.
unfold within_window. destruct (Js.gt_number _ _) as [[]|]; congruence.
Qed.

(** [newer_than] is [List.filter], and throws exactly on a sample it
  cannot test. *)
Lemma newer_than_filter cutoff items :
forallb sample_ok items = true ->
newer_than cutoff items = Ok (List.filter (within_window cutoff) items).
Proof.
induction items as [|p items IH]; [reflexivity|].
cbn [forallb newer_than List.filter].
intros H. apply andb_prop in H as [Hp Hr].
destruct (sample_ok_test cutoff p Hp) as [Hg Ht].
rewrite Hg. cbn [mbind result_bind]. rewrite Ht. cbn [mbind result_bind].
rewrite (IH Hr). reflexivity.
Qed.

Lemma newer_than_ok cutoff items kept :
newer_than cutoff items = Ok kept -> forallb sample_ok items = true.
Proof.
revert kept. induction items as [|p items IH]; [reflexivity|].
cbn [forallb newer_than].
intros kept. unfold Js.get, sample_ok.
destruct (Js.nullish p); cbn [mbind result_bind negb andb]; [discriminate|].
destruct (Js.to_primitive_throws (Js.prop p "time")) eqn:E.
- rewrite (gt_number_throws _ cutoff E). discriminate.
- rewrite (gt_number_value _ cutoff E). cbn [mbind result_bind negb andb].
  destruct (newer_than cutoff items) as [k|e]; cbn [mbind result_bind]; [|discriminate].
  intros _. eapply IH. reflexivity.
Qed.

Lemma filter_newer_ok cutoff arr kept :
filter_newer cutoff arr = Ok kept ->
exists items, arr = VArr items
  /\ sequence_ok arr = true
  /\ kept = VArr (List.filter (within_window cutoff) items).
Proof.
destruct arr; simpl; try discriminate.
destruct (newer_than cutoff items) as [k|e] eqn:E; simpl; [|discriminate].
intros H. inversion H; subst. exists items.
pose proof (newer_than_ok _ _ _ E) as Hok.
rewrite (newer_than_filter _ _ Hok) in E. inversion E. auto.
Qed.

Lemma filter_newer_total cutoff arr :
sequence_ok arr = true ->
filter_newer cutoff arr = Ok (VArr (List.filter (within_window cutoff) (Js.items_of arr))).
Proof.
destruct arr; simpl; try discriminate.
intros H. rewrite (newer_than_filter _ _ H). reflexivity.
Qed.

(** A trimmed metric was a usable sequence and now holds its samples
  inside the window; the other properties are untouched. *)
Lemma trim_metric_ok metric cutoff h h' :
trim_metric metric cutoff h = Ok h' ->
(forall k, metric <> k -> Js.prop h' k = Js.prop h k)
/\ exists items, Js.prop h metric = VArr items
     /\ sequence_ok (VArr items) = true
     /\ Js.prop h' metric = VArr (List.filter (within_window cutoff) items).
Proof.
unfold trim_metric.
destruct (filter_newer cutoff (Js.prop h metric)) as [k|e] eqn:E; simpl; [|discriminate].
intros H. inversion H; subst.
destruct (filter_newer_ok _ _ _ E) as (items & Hp & Hs & ->).
destruct (prop_array_object _ _ _ Hp) as [fs ->].
split; [intros k Hk; now apply prop_set_prop_ne|].
rewrite Hp in Hs. exists items. repeat split; [assumption.. | apply prop_set_prop_eq].
Qed.

(** After the append, a metric that is a sequence is the earlier
  sequence with the new sample, if any, at its end; the other properties
  are untouched. *)
Lemma append_reading_ok metric convert now raw h h' :
append_reading metric convert now raw h = Ok h' ->
(forall k, metric <> k -> Js.prop h' k = Js.prop h k)
/\ forall items, Js.prop h' metric = VArr items ->
     exists l, Js.prop h metric = VArr l
       /\ items = (l ++ new_samples convert now raw)%list.
Proof.
unfold append_reading. destruct raw as [x|].
- destruct (Js.prop h metric) as [| | | | |l|] eqn:Ep; simpl; try discriminate.
  intros H. inversion H; subst.
  destruct (prop_array_object _ _ _ Ep) as [fs ->].
  split; [intros k Hk; now apply prop_set_prop_ne|].
  intros items Hi. rewrite prop_set_prop_eq in Hi. inversion Hi; subst.
  exists l. rewrite <- Ep. auto.
- intros H. inversion H; subst. split; [reflexivity|].
  intros items Hi. exists items. simpl. rewrite app_nil_r. auto.
Qed.

(** The sample of a reading is one the trim can test. *)
Lemma new_samples_ok convert now raw :
forallb sample_ok (new_samples convert now raw) = true.
Proof. destruct raw; reflexivity. Qed.

(** A reading is returned, present or absent, exactly when its value
  field can be read. *)
Lemma parseEcowittValue_readable node :
(exists raw, parseEcowittValue node = Ok raw) <-> readable node = true.
Proof.
rewrite parseEcowittValue_cases. destruct (readable node); split; eauto.
- intros [raw H]. discriminate.
- discriminate.
Qed.

Lemma parseEcowittValue_unreadable node :
readable node = false -> parseEcowittValue node = Throw Js.cannot_convert.
Proof. intros H. rewrite parseEcowittValue_cases, H. reflexivity. Qed.

(** Both readings are returned exactly when both can be read. *)
Lemma readings_ok_iff data :
readings_ok data = true
<-> exists pressure temperature,
      rawPressure data = Ok pressure /\ rawTemp data = Ok temperature.
Proof.
unfold readings_ok, rawPressure, rawTemp. rewrite andb_true_iff.
rewrite <- !parseEcowittValue_readable. split.
- intros [[p Hp] [t Ht]]. eauto.
- intros (p & t & Hp & Ht). eauto.
Qed.

(** A reading that cannot be read stops the merge before anything is
  appended. *)
Lemma merge_readings_unreadable now data h :
readings_ok data = false -> merge_readings now data h = Throw Js.cannot_convert.
Proof.
unfold readings_ok, merge_readings, rawPressure, rawTemp. intros H.
apply andb_false_iff in H as [H|H].
- rewrite (parseEcowittValue_unreadable _ H). reflexivity.
- rewrite (parseEcowittValue_unreadable _ H), parseEcowittValue_cases.
  destruct (readable (Js.opt_get (Js.opt_get data "pressure") "relative")); reflexivity.
Qed.

(** What a completed merge leaves in each sequence: the stored samples
  and the new one, those inside the window.  It completes only on
  readings that can be read and on usable sequences. *)
Lemma merge_readings_ok now data h h' :
merge_readings now data h = Ok h' ->
exists pressure temperature lp lt,
  rawPressure data = Ok pressure /\ rawTemp data = Ok temperature
  /\ Js.prop h "pressure" = VArr lp /\ Js.prop h "temperature" = VArr lt
  /\ history_ok h = true
  /\ Js.prop h' "pressure"
     = VArr (List.filter (within_window (cutoff_at now))
               (lp ++ new_samples inHgToHPa now pressure))
  /\ Js.prop h' "temperature"
     = VArr (List.filter (within_window (cutoff_at now))
               (lt ++ new_samples fToC now temperature)).
Proof.
unfold merge_readings.
destruct (rawPressure data) as [rp|]; simpl; [|discriminate].
destruct (rawTemp data) as [rt|]; simpl; [|discriminate].
destruct (append_reading "pressure" _ _ _ h) as [h1|] eqn:E1; simpl; [|discriminate].
destruct (append_reading "temperature" _ _ _ h1) as [h2|] eqn:E2; simpl; [|discriminate].
destruct (trim_metric "pressure" _ h2) as [h3|] eqn:E3; simpl; [|discriminate].
intros E4.
assert (Hne : "pressure" <> "temperature") by discriminate.
assert (Hne' : "temperature" <> "pressure") by discriminate.
apply append_reading_ok in E1 as [K1 A1].
apply append_reading_ok in E2 as [K2 A2].
apply trim_metric_ok in E3 as (K3 & l3 & Hp3 & Hs3 & Hp3').
apply trim_metric_ok in E4 as (K4 & l4 & Hp4 & Hs4 & Hp4').
rewrite (K2 _ Hne') in Hp3. destruct (A1 _ Hp3) as (lp & Hlp & ->).
rewrite (K3 _ Hne) in Hp4. destruct (A2 _ Hp4) as (lt & Hlt & ->).
rewrite (K1 _ Hne) in Hlt.
exists rp, rt, lp, lt. repeat split; try assumption.
- unfold history_ok. rewrite Hlp, Hlt. simpl in *.
  rewrite forallb_app in Hs3, Hs4.
  apply andb_prop in Hs3 as [-> _]. apply andb_prop in Hs4 as [-> _]. reflexivity.
- rewrite (K4 _ Hne'). assumption.
Qed.

(** Besides the two sequences, the merge changes nothing. *)
Lemma merge_readings_other now data h h' :
merge_readings now data h = Ok h' ->
forall k, k <> "pressure" -> k <> "temperature" -> Js.prop h' k = Js.prop h k.
Proof.
unfold merge_readings.
destruct (rawPressure data) as [rp|]; simpl; [|discriminate].
destruct (rawTemp data) as [rt|]; simpl; [|discriminate].
destruct (append_reading "pressure" _ _ _ h) as [h1|] eqn:E1; simpl; [|discriminate].
destruct (append_reading "temperature" _ _ _ h1) as [h2|] eqn:E2; simpl; [|discriminate].
destruct (trim_metric "pressure" _ h2) as [h3|] eqn:E3; simpl; [|discriminate].
intros E4 k Hp Ht.
apply append_reading_ok in E1 as [K1 _].
apply append_reading_ok in E2 as [K2 _].
apply trim_metric_ok in E3 as [K3 _].
apply trim_metric_ok in E4 as [K4 _].
rewrite K4, K3, K2, K1 by congruence. reflexivity.
Qed.

(** The merge completes on readings that can be read and a history whose
  two sequences are usable. *)
Lemma merge_readings_total now data h :
history_ok h = true -> readings_ok data = true ->
exists h', merge_readings now data h = Ok h'.
Proof.
unfold history_ok. intros H Hr. apply andb_prop in H as [Hp Ht].
apply readings_ok_iff in Hr as (rp & rt & Hrp & Hrt).
destruct (Js.prop h "pressure") as [| | | | |lp|] eqn:Ep; try discriminate.
destruct (Js.prop h "temperature") as [| | | | |lt|] eqn:Et; try discriminate.
destruct (prop_array_object _ _ _ Ep) as [fs ->].
assert (Hne : "pressure" <> "temperature") by discriminate.
assert (Hne' : "temperature" <> "pressure") by discriminate.
assert (Hseq : forall l convert raw, sequence_ok (VArr l) = true ->
          sequence_ok (VArr (l ++ new_samples convert now raw)) = true).
{ intros l convert raw Hl. simpl in *. rewrite forallb_app, Hl.
  apply new_samples_ok. }
unfold merge_readings. rewrite Hrp, Hrt. cbn [mbind result_bind].
(* append pressure *)
assert (E1 : exists f1, append_reading "pressure" inHgToHPa now rp (VObj fs) = Ok (VObj f1)
           /\ Js.prop (VObj f1) "pressure" = VArr (lp ++ new_samples inHgToHPa now rp)
           /\ Js.prop (VObj f1) "temperature" = VArr lt).
{ unfold append_reading. destruct rp.
  - rewrite Ep. simpl push. cbn [mbind result_bind]. eexists. split; [reflexivity|].
    split; [apply prop_set_field_eq | rewrite prop_set_field_ne by assumption; exact Et].
  - exists fs. simpl. rewrite app_nil_r. auto. }
destruct E1 as (f1 & -> & Ep1 & Et1). cbn [mbind result_bind].
assert (E2 : exists f2, append_reading "temperature" fToC now rt (VObj f1) = Ok (VObj f2)
           /\ Js.prop (VObj f2) "pressure" = VArr (lp ++ new_samples inHgToHPa now rp)
           /\ Js.prop (VObj f2) "temperature" = VArr (lt ++ new_samples fToC now rt)).
{ unfold append_reading. destruct rt.
  - rewrite Et1. simpl push. cbn [mbind result_bind]. eexists. split; [reflexivity|].
    split; [rewrite prop_set_field_ne by assumption; exact Ep1 | apply prop_set_field_eq].
  - exists f1. simpl. rewrite app_nil_r. auto. }
destruct E2 as (f2 & -> & Ep2 & Et2). cbn [mbind result_bind].
unfold trim_metric. rewrite Ep2.
rewrite filter_newer_total by (apply (Hseq lp inHgToHPa rp Hp)).
cbn [mbind result_bind]. rewrite prop_set_prop_ne by assumption. rewrite Et2.
rewrite filter_newer_total by (apply (Hseq lt fToC rt Ht)).
cbn [mbind result_bind]. eauto.
Qed.

(** The merge completes exactly on readings that can be read and usable
  sequences. *)
Lemma merge_readings_completes_iff now data h :
(exists h', merge_readings now data h = Ok h')
<-> history_ok h = true /\ readings_ok data = true.
Proof.
split.
- intros [h' H]. apply merge_readings_ok in H as (rp & rt & lp & lt & Hp & Ht & _ & _ & Hok & _).
  split; [exact Hok|]. apply readings_ok_iff. eauto.
- intros [Hh Hr]. now apply merge_readings_total.
Qed.

End HistoryFacts.

Import HistoryFacts.

Lemma updateTrendHistory_unfold P kv data st :
  updateTrendHistory P kv data st =
  let read := kv_get kv KV_HISTORY_KEY st in
  match merge_readings (Date_now P) data (starting_history (fst read)) with
  | Ok h =>
      (Ok h, snd (kv_put kv KV_HISTORY_KEY (JSON_stringify h) (49 * 3600) (snd read)))
  | Throw e => (Throw e, snd read)
  end.
Proof.
  unfold updateTrendHistory, mbind, M_bind, settle, lift, mret, M_ret.
  destruct (kv_get kv KV_HISTORY_KEY st) as [r st1]; simpl.
  destruct (merge_readings _ _ _); simpl; [|reflexivity].
  destruct (kv_put _ _ _ _ st1); reflexivity.
Qed.

(** C1.  Whatever [updateTrendHistory] returns, every sample retained in
    its pressure and in its temperature sequence has
    [time > now - MAX_HISTORY_HOURS * 3600000], with [MAX_HISTORY_HOURS]
    = 48.  The comparison is strict: no retained sample has a time equal
    to the cutoff, so a stored sample exactly at the boundary is evicted. *)
Theorem updateTrendHistory_window P kv realtimeData st history st' :
  updateTrendHistory P kv realtimeData st = (Ok history, st') ->
  forall metric, metric = "pressure" \/ metric = "temperature" ->
  forall p, In p (Js.items_of (Js.prop history metric)) ->
    Js.gt_number (Js.prop p "time") (Date_now P - MAX_HISTORY_HOURS * 3600000)%float
    = Ok true
    /\ Js.prop p "time" <> VNum (Date_now P - MAX_HISTORY_HOURS * 3600000)%float.
Proof.
  rewrite updateTrendHistory_unfold. cbv zeta.
  destruct (merge_readings _ _ _) as [h|e] eqn:E; [|discriminate].
  intros H. inversion H; subst h. clear H.
  apply merge_readings_ok in E as (rp & rt & lp & lt & _ & _ & _ & _ & _ & Hp & Ht).
  change (Date_now P - MAX_HISTORY_HOURS * 3600000)%float with (cutoff_at (Date_now P)).
  assert (Hin : forall l p, In p (List.filter (within_window (cutoff_at (Date_now P))) l) ->
            Js.gt_number (Js.prop p "time") (cutoff_at (Date_now P)) = Ok true
            /\ Js.prop p "time" <> VNum (cutoff_at (Date_now P))).
  { intros l p Hp0. apply filter_In in Hp0 as [_ Hw].
    apply within_window_test in Hw. split; [exact Hw|].
    intros Heq. rewrite Heq in Hw.
    unfold Js.gt_number in Hw. simpl in Hw. rewrite ltb_irrefl in Hw. discriminate. }
  intros metric [->| ->] p Hin0.
  - rewrite Hp in Hin0. eapply Hin, Hin0.
  - rewrite Ht in Hin0. eapply Hin, Hin0.
Qed.

Lemma updateTrendHistory_window_witness :
  let st := fresh (Scenario.stored Scenario.boundary_history) in
  let run := updateTrendHistory Scenario.all_up Scenario.healthy_kv
               (Scenario.reading "29.8" "32") st in
  run = (Ok Scenario.trimmed_history, snd run)
  /\ In (sample 1699999999000 1012)
        (Js.items_of (Js.prop Scenario.trimmed_history "pressure"))
  /\ Js.gt_number (VNum 1699999999000)
        (Scenario.now - MAX_HISTORY_HOURS * 3600000)%float = Ok true
  /\ VNum 1699999999000 <> VNum (Scenario.now - MAX_HISTORY_HOURS * 3600000)%float.
Proof.
  cbv zeta.
  assert (Hrun : updateTrendHistory Scenario.all_up Scenario.healthy_kv
                   (Scenario.reading "29.8" "32")
                   (fresh (Scenario.stored Scenario.boundary_history))
                 = (Ok Scenario.trimmed_history,
                    snd (updateTrendHistory Scenario.all_up Scenario.healthy_kv
                           (Scenario.reading "29.8" "32")
                           (fresh (Scenario.stored Scenario.boundary_history)))))
    by (vm_compute; reflexivity).
  assert (Hin : In (sample 1699999999000 1012)
                  (Js.items_of (Js.prop Scenario.trimmed_history "pressure")))
    by (simpl; auto).
  split; [exact Hrun|]. split; [exact Hin|].
  exact (updateTrendHistory_window _ _ _ _ _ _ Hrun "pressure" (or_introl eq_refl) _ Hin).
Defined.

(** The boundary sample of the stored history is gone after the update. *)
Example boundary_sample_evicted :
  In (sample (cutoff_at Scenario.now) 1013)
     (Js.items_of (Js.prop Scenario.boundary_history "pressure"))
  /\ fst (updateTrendHistory Scenario.all_up Scenario.healthy_kv
            (Scenario.reading "29.8" "32")
            (fresh (Scenario.stored Scenario.boundary_history)))
     = Ok Scenario.trimmed_history
  /\ ~ In (sample (cutoff_at Scenario.now) 1013)
         (Js.items_of (Js.prop Scenario.trimmed_history "pressure")).
Proof.
  split; [simpl; auto|]. split; [vm_compute; reflexivity|].
  simpl. intros [H|[H|[]]];
    apply (f_equal (within_window (cutoff_at Scenario.now))) in H;
    vm_compute in H; discriminate.
Qed.

Lemma falls_back_empty kv st :
  falls_back kv st -> starting_history (fst (kv_get kv KV_HISTORY_KEY st)) = empty_history.
Proof.
  unfold kv_get. simpl.
  intros [H|[H|[(e & text & H & Hb)|(e & v & H & Hb & Hv)]]].
  - rewrite H. reflexivity.
  - destruct (reads_succeed kv); [|reflexivity]. rewrite H. reflexivity.
  - destruct (reads_succeed kv); [|reflexivity]. rewrite H, Hb. reflexivity.
  - destruct (reads_succeed kv); [|reflexivity]. rewrite H, Hb. simpl.
    unfold Js.opt_get in Hv.
    destruct (Js.truthy v) eqn:Ev; [|reflexivity].
    assert (Js.nullish v = false) as Hn by (destruct v; simpl in *; congruence).
    rewrite Hn in Hv. destruct Hv as [-> | ->]; simpl; [|rewrite andb_false_r]; reflexivity.
Qed.

(** The merge on the empty history: each sequence holds the new sample,
    when the reading is present and [now] is inside its own window. *)
Lemma merge_readings_empty now data pressure temperature :
  rawPressure data = Ok pressure -> rawTemp data = Ok temperature ->
  merge_readings now data empty_history
  = Ok (VObj [("pressure",
               VArr (List.filter (within_window (cutoff_at now))
                       (new_samples inHgToHPa now pressure)));
              ("temperature",
               VArr (List.filter (within_window (cutoff_at now))
                       (new_samples fToC now temperature)))]).
Proof.
  unfold merge_readings, append_reading. intros -> ->.
  destruct pressure, temperature; reflexivity.
Qed.

(** X1.  When the read throws, the key is absent, the stored text is not
    JSON, or the stored value lacks a truthy [pressure] or [temperature],
    and the two readings of the payload can be read, [updateTrendHistory]
    does not throw: it starts from the empty history and returns the one
    made of the current samples. *)
Lemma updateTrendHistory_falls_back P kv data st pressure temperature :
  falls_back kv st ->
  rawPressure data = Ok pressure ->
  rawTemp data = Ok temperature ->
  fst (updateTrendHistory P kv data st)
  = Ok (VObj [("pressure",
               VArr (List.filter (within_window (cutoff_at (Date_now P)))
                       (new_samples inHgToHPa (Date_now P) pressure)));
              ("temperature",
               VArr (List.filter (within_window (cutoff_at (Date_now P)))
                       (new_samples fToC (Date_now P) temperature)))]).
Proof.
  intros H Hp Ht. rewrite updateTrendHistory_unfold. cbv zeta.
  rewrite (falls_back_empty _ _ H), (merge_readings_empty _ _ _ _ Hp Ht). reflexivity.
Qed.

(** The update completes exactly when what it starts from is usable and
    the readings of the payload can be read. *)
Lemma updateTrendHistory_completes_iff P kv data st :
  (exists h, fst (updateTrendHistory P kv data st) = Ok h)
  <-> store_usable kv st = true /\ readings_ok data = true.
Proof.
  rewrite updateTrendHistory_unfold. cbv zeta. unfold store_usable.
  rewrite <- merge_readings_completes_iff with (now := Date_now P).
  destruct (merge_readings _ _ _) as [h'|e]; split; eauto;
    intros [h H]; discriminate.
Qed.

(** C2.  The claim is that no stored value makes [updateTrendHistory]
    throw.  A stored blob whose [pressure] and [temperature] are present
    but are no sequences passes the guard of the read and makes the
    update throw: at [push] when the reading is present, at [filter] when
    it is not.  With nothing stored the same call returns the history of
    the current sample. *)
Theorem updateTrendHistory_unshaped_blob_throws :
  let st := fresh (Scenario.stored Scenario.unshaped_blob) in
  fst (updateTrendHistory Scenario.all_up Scenario.healthy_kv
         (Scenario.reading "29.8" "32") st)
  = Throw (TypeError "push is not a function")
  /\ fst (updateTrendHistory Scenario.all_up Scenario.healthy_kv (VObj []) st)
     = Throw (TypeError "filter is not a function")
  /\ fst (updateTrendHistory Scenario.all_up Scenario.healthy_kv
            (Scenario.reading "29.8" "32") (fresh ∅))
     = Ok Scenario.first_history.
Proof. cbv zeta. repeat split; vm_compute; reflexivity. Qed.

(** What the read returns and leaves does not depend on whether writes
    go through. *)
Lemma kv_get_writes reads writes st :
  fst (kv_get (KvNamespace reads writes) KV_HISTORY_KEY st)
  = fst (kv_get (KvNamespace reads true) KV_HISTORY_KEY st)
  /\ kv_data (snd (kv_get (KvNamespace reads writes) KV_HISTORY_KEY st)) = kv_data st.
Proof.
  unfold kv_get. simpl. destruct reads; [|auto].
  destruct (kv_data st !! KV_HISTORY_KEY) as [e|]; [destruct (entry_blob e)|]; auto.
Qed.

(** C8.  A failing write is swallowed.  Whenever the update reaches the
    write (what it starts from is usable and the readings can be read),
    [updateTrendHistory] returns a history, the same one whether the write
    goes through or throws: the history after the trim, whose sequences
    hold the starting samples and the new one that lie inside the window.
    A write that goes through stores that history, serialised, under
    [KV_HISTORY_KEY] with an expiry of the window plus one hour, 49 * 3600
    seconds; one that fails leaves the namespace as it was. *)
Theorem updateTrendHistory_write_swallowed P reads realtimeData st :
  store_usable (KvNamespace reads true) st = true ->
  readings_ok realtimeData = true ->
  let failing := updateTrendHistory P (KvNamespace reads false) realtimeData st in
  let working := updateTrendHistory P (KvNamespace reads true) realtimeData st in
  let start := starting_history (fst (kv_get (KvNamespace reads true) KV_HISTORY_KEY st)) in
  let kept := List.filter (within_window (cutoff_at (Date_now P))) in
  exists history pressure temperature,
    fst failing = Ok history
    /\ fst working = Ok history
    /\ rawPressure realtimeData = Ok pressure
    /\ rawTemp realtimeData = Ok temperature
    /\ Js.prop history "pressure"
       = VArr (kept (Js.items_of (Js.prop start "pressure")
                     ++ new_samples inHgToHPa (Date_now P) pressure)%list)
    /\ Js.prop history "temperature"
       = VArr (kept (Js.items_of (Js.prop start "temperature")
                     ++ new_samples fToC (Date_now P) temperature)%list)
    /\ kv_data (snd working) !! KV_HISTORY_KEY
       = Some (KvEntry (JSON_stringify history) ((48 + 1) * 3600))
    /\ last (calls (snd working))
       = Some (EvKvPut KV_HISTORY_KEY (JSON_stringify history) ((48 + 1) * 3600))
    /\ kv_data (snd failing) = kv_data st.
Proof.
  intros Hu Hr. cbv zeta. rewrite !updateTrendHistory_unfold. cbv zeta.
  destruct (kv_get_writes reads false st) as [-> Hk].
  unfold store_usable in Hu.
  destruct (merge_readings_total (Date_now P) realtimeData _ Hu Hr) as [h Hm].
  rewrite Hm. cbn [fst snd].
  apply merge_readings_ok in Hm as (rp & rt & lp & lt & Hrp & Hrt & Hlp & Hlt & _ & Hp & Ht).
  exists h, rp, rt. rewrite Hlp, Hlt.
  repeat (split; [first [reflexivity | assumption]|]).
  unfold kv_put. simpl. rewrite lookup_insert_eq, last_snoc. auto.
Qed.

Lemma updateTrendHistory_write_swallowed_witness :
  let st := fresh (Scenario.stored Scenario.boundary_history) in
  let data := Scenario.reading "29.8" "32" in
  store_usable Scenario.healthy_kv st = true
  /\ readings_ok data = true
  /\ fst (updateTrendHistory Scenario.all_up Scenario.read_only_kv data st)
     = Ok Scenario.trimmed_history
  /\ fst (updateTrendHistory Scenario.all_up Scenario.healthy_kv data st)
     = Ok Scenario.trimmed_history
  /\ kv_data (snd (updateTrendHistory Scenario.all_up Scenario.healthy_kv data st))
     !! KV_HISTORY_KEY
     = Some (KvEntry (JSON_stringify Scenario.trimmed_history) 176400)
  /\ kv_data (snd (updateTrendHistory Scenario.all_up Scenario.read_only_kv data st))
     = Scenario.stored Scenario.boundary_history.
Proof.
  cbv zeta.
  assert (Hu : store_usable Scenario.healthy_kv
                 (fresh (Scenario.stored Scenario.boundary_history)) = true)
    by (vm_compute; reflexivity).
  assert (Hr : readings_ok (Scenario.reading "29.8" "32") = true)
    by (vm_compute; reflexivity).
  destruct (updateTrendHistory_write_swallowed Scenario.all_up true
              (Scenario.reading "29.8" "32")
              (fresh (Scenario.stored Scenario.boundary_history)) Hu Hr)
    as (history & rp & rt & Hf & Hw & _ & _ & _ & _ & Hs & _ & Hd).
  assert (Hh : history = Scenario.trimmed_history).
  { assert (Hc : fst (updateTrendHistory Scenario.all_up Scenario.healthy_kv
                        (Scenario.reading "29.8" "32")
                        (fresh (Scenario.stored Scenario.boundary_history)))
                 = Ok Scenario.trimmed_history) by (vm_compute; reflexivity).
    change Scenario.healthy_kv with (KvNamespace true true) in Hc.
    rewrite Hw in Hc. now injection Hc. }
  subst history.
  split; [exact Hu|]. split; [exact Hr|]. split; [exact Hf|]. split; [exact Hw|].
  split; [exact Hs | exact Hd].
Defined.

(** The write failing and the write going through, side by side: the
    same history comes back, and only the second changes what is stored. *)
Example updateTrendHistory_write_outcomes :
  let st := fresh (Scenario.stored Scenario.boundary_history) in
  let data := Scenario.reading "29.8" "32" in
  updateTrendHistory Scenario.all_up Scenario.read_only_kv data st
  = (Ok Scenario.trimmed_history,
     State (Scenario.stored Scenario.boundary_history)
       [EvKvGet KV_HISTORY_KEY;
        EvKvPut KV_HISTORY_KEY (Json Scenario.trimmed_history) 176400])
  /\ updateTrendHistory Scenario.all_up Scenario.healthy_kv data st
     = (Ok Scenario.trimmed_history,
        State (Scenario.stored Scenario.trimmed_history)
          [EvKvGet KV_HISTORY_KEY;
           EvKvPut KV_HISTORY_KEY (Json Scenario.trimmed_history) 176400]).
Proof. cbv zeta. split; vm_compute; reflexivity. Qed.

(** X2.  [updateTrendHistory] throws exactly when the value it starts
    from, stored and past the guard of the read, has a [pressure] or a
    [temperature] that is not an array of samples the trim can test
    (none [null], none with a [time] that does not convert to a number),
    or a reading of the payload cannot be read ([parseFloat] throws on
    its value field). *)
Theorem updateTrendHistory_throws_iff P kv realtimeData st :
  (exists e, fst (updateTrendHistory P kv realtimeData st) = Throw e)
  <-> store_usable kv st = false \/ readings_ok realtimeData = false.
Proof.
  pose proof (updateTrendHistory_completes_iff P kv realtimeData st) as [H1 H2].
  destruct (fst (updateTrendHistory P kv realtimeData st)) as [h|e] eqn:E; split.
  - intros [e He]. discriminate.
  - destruct (H1 ltac:(eauto)) as [-> ->]. intros [H|H]; discriminate.
  - intros _. destruct (store_usable kv st); [|auto].
    destruct (readings_ok realtimeData); [|auto].
    destruct (H2 (conj eq_refl eq_refl)) as [h Hh]. discriminate.
  - eauto.
Qed.

(** The stored time and the reading that the guards let through and the
    conversions throw on. *)
Example updateTrendHistory_unconvertible_throws :
  let st := fresh (Scenario.stored
                     (VObj [("pressure",
                             VArr [VObj [("time", VObj [("toString", VNum 1)]);
                                         ("value", VNum 1013)]]);
                            ("temperature", VArr [])])) in
  let data := VObj [("pressure",
                     VObj [("relative", VObj [("value", VObj [("toString", VNum 1)])])])] in
  store_usable Scenario.healthy_kv st = false
  /\ fst (updateTrendHistory Scenario.all_up Scenario.healthy_kv
            (Scenario.reading "29.8" "32") st)
     = Throw Js.cannot_convert
  /\ readings_ok data = false
  /\ fst (updateTrendHistory Scenario.all_up Scenario.healthy_kv data (fresh ∅))
     = Throw Js.cannot_convert.
Proof. cbv zeta. repeat split; vm_compute; reflexivity. Qed.

Lemma updateTrendHistory_falls_back_witness :
  falls_back Scenario.healthy_kv (fresh Scenario.garbled_store)
  /\ rawPressure (Scenario.reading "29.8" "32") = Ok (Some 29.8%float)
  /\ rawTemp (Scenario.reading "29.8" "32") = Ok (Some 32%float)
  /\ fst (updateTrendHistory Scenario.all_up Scenario.healthy_kv
            (Scenario.reading "29.8" "32") (fresh Scenario.garbled_store))
     = Ok Scenario.first_history.
Proof.
  assert (Hf : falls_back Scenario.healthy_kv (fresh Scenario.garbled_store)).
  { right. right. left. eexists. eexists. split; [vm_compute|]; reflexivity. }
  assert (Hp : rawPressure (Scenario.reading "29.8" "32") = Ok (Some 29.8%float))
    by (vm_compute; reflexivity).
  assert (Ht : rawTemp (Scenario.reading "29.8" "32") = Ok (Some 32%float))
    by (vm_compute; reflexivity).
  split; [exact Hf|]. split; [exact Hp|]. split; [exact Ht|].
  pose proof (updateTrendHistory_falls_back Scenario.all_up Scenario.healthy_kv
                (Scenario.reading "29.8" "32") (fresh Scenario.garbled_store) _ _
                Hf Hp Ht) as H.
  vm_compute in H |- *. exact H.
Defined.


(* ===================================================================== *)
(** * The request handler *)
(* ===================================================================== *)

Lemma fetchEcowitt_rejected P to e st :
  fetch_rejected P to e -> fetchEcowitt P to st = (Throw e, logged (EvFetch to) st).
Proof.
  unfold fetchEcowitt. intros [e' H|r H Hok|r e' H Hok Hj]; rewrite H; [reflexivity| |];
    rewrite Hok; [reflexivity|]. rewrite Hj. reflexivity.
Qed.

Lemma fetchEcowitt_fulfilled P to body st :
  fetch_fulfilled P to body -> fetchEcowitt P to st = (Ok body, logged (EvFetch to) st).
Proof.
  unfold fetchEcowitt. intros (r & H & Hok & Hj). rewrite H, Hok, Hj. reflexivity.
Qed.

Lemma fetchEcowitt_state P to st : snd (fetchEcowitt P to st) = logged (EvFetch to) st.
Proof.
  unfold fetchEcowitt. destruct (fetch P to) as [r|e]; [destruct (ok r)|]; reflexivity.
Qed.

Lemma logged_twice a b st :
  logged b (logged a st) = State (kv_data st) (calls st ++ [a; b]).
Proof. unfold logged. simpl. now rewrite <- app_assoc. Qed.

(** What [kv.get] returns depends on the stored data alone. *)
Lemma kv_get_data kv key st st' :
  kv_data st = kv_data st' -> fst (kv_get kv key st) = fst (kv_get kv key st').
Proof.
  unfold kv_get. simpl. intros ->. destruct (reads_succeed kv); [|reflexivity].
  destruct (kv_data st' !! key) as [e|]; [destruct (entry_blob e)|]; reflexivity.
Qed.

Lemma store_usable_data kv st st' :
  kv_data st = kv_data st' -> store_usable kv st = store_usable kv st'.
Proof. unfold store_usable. intros H. now rewrite (kv_get_data _ _ _ _ H). Qed.

Ltac run_handler :=
  unfold onRequestGet, onRequestGet_part_000, trend_history,
    mbind, M_bind, settle, lift, mret, M_ret.





(** X3.  A current-reading body that is the JSON value [null] has no
    status code to read: [realtimeData.code] throws, and so does the handler,
    after the two fetches and before any answer.  (The history body is
    read with [?.] and has no such case.) *)
Theorem onRequestGet_null_body P env st :
  credentials_missing env = false ->
  fetch_fulfilled P RealTime VNull ->
  onRequestGet P env st
  = (Throw (TypeError "Cannot read properties of null or undefined (reading 'code')"),
     State (kv_data st) (calls st ++ [EvFetch RealTime; EvFetch History])).
Proof.
  intros Hc Hb. run_handler. rewrite Hc, (fetchEcowitt_fulfilled _ _ _ _ Hb).
  destruct (fetchEcowitt P History _) as [hr st2] eqn:E.
  pose proof (fetchEcowitt_state P History (logged (EvFetch RealTime) st)) as Hs.
  rewrite E in Hs. simpl in Hs. subst st2. rewrite logged_twice. reflexivity.
Qed.

Lemma onRequestGet_null_body_witness :
  let P := Platform (fun _ => Scenario.http_ok VNull) Scenario.now in
  credentials_missing Scenario.configured = false
  /\ fetch_fulfilled P RealTime VNull
  /\ onRequestGet P Scenario.configured (fresh ∅)
     = (Throw (TypeError "Cannot read properties of null or undefined (reading 'code')"),
        State ∅ [EvFetch RealTime; EvFetch History]).
Proof.
  cbv zeta.
  assert (Hb : fetch_fulfilled (Platform (fun _ => Scenario.http_ok VNull) Scenario.now)
                 RealTime VNull)
    by (eexists; repeat split; reflexivity).
  split; [reflexivity|]. split; [exact Hb|].
  exact (onRequestGet_null_body _ Scenario.configured (fresh ∅) eq_refl Hb).
Defined.




Module HandlerFacts.

(** A call to an endpoint is rejected or fulfilled. *)
Lemma fetchEcowitt_cases P to st :
  (exists e, fetch_rejected P to e
             /\ fetchEcowitt P to st = (Throw e, logged (EvFetch to) st))
  \/ (exists body, fetch_fulfilled P to body
                   /\ fetchEcowitt P to st = (Ok body, logged (EvFetch to) st)).
Proof.
  unfold fetchEcowitt.
  destruct (fetch P to) as [r|e] eqn:E.
  - destruct (ok r) eqn:Hok.
    + destruct (json r) as [body|e] eqn:Hj.
      * right. exists body. split; [exists r; auto | reflexivity].
      * left. exists e. split; [eapply rejected_by_body; eauto | reflexivity].
    + left. eexists. split; [eapply rejected_by_status; eauto | reflexivity].
  - left. exists e. split; [now apply rejected_by_network | reflexivity].
Qed.

(** Its outcome does not depend on the state it starts from. *)
Lemma fetchEcowitt_outcome P to st st' :
  fst (fetchEcowitt P to st) = fst (fetchEcowitt P to st').
Proof.
  unfold fetchEcowitt. destruct (fetch P to) as [r|e]; [destruct (ok r)|]; reflexivity.
Qed.

Lemma fetch_rejected_outcome P to e st :
  fetch_rejected P to e -> fst (fetchEcowitt P to st) = Throw e.
Proof. intros H. now rewrite (fetchEcowitt_rejected _ _ _ _ H). Qed.

Lemma fetch_fulfilled_outcome P to body st :
  fetch_fulfilled P to body -> fst (fetchEcowitt P to st) = Ok body.
Proof. intros H. now rewrite (fetchEcowitt_fulfilled _ _ _ _ H). Qed.

Lemma fetch_outcome_rejected P to e st :
  fst (fetchEcowitt P to st) = Throw e -> fetch_rejected P to e.
Proof.
  destruct (fetchEcowitt_cases P to st) as [(e' & H & ->)|(b & H & ->)]; simpl; congruence.
Qed.

Lemma fetch_outcome_fulfilled P to body st :
  fst (fetchEcowitt P to st) = Ok body -> fetch_fulfilled P to body.
Proof.
  destruct (fetchEcowitt_cases P to st) as [(e' & H & ->)|(b & H & ->)]; simpl; congruence.
Qed.

(** The later revision of the handler, step by step. *)
Lemma onRequestGet_unfold P env st :
  credentials_missing env = false ->
  onRequestGet P env st =
  match fst (fetchEcowitt P RealTime st) with
  | Throw reason =>
      (Ok (jsonResponse
             (VObj [("error", VStr ("Failed to reach Ecowitt API: " ++ error_to_string reason))])
             502), fetched st)
  | Ok body =>
      if Js.nullish body
      then (Throw (TypeError "Cannot read properties of null or undefined (reading 'code')"),
            fetched st)
      else if Js.is_zero_number (Js.prop body "code")
      then
        let outcome := history_outcome (fst (fetchEcowitt P History st)) in
        match trend_history P env (Js.prop body "data") (fetched st) with
        | (Ok trends, st') =>
            (Ok (jsonResponse
                   (VObj [("realtime", Js.prop body "data");
                          ("history", fst outcome);
                          ("history_error", snd outcome);
                          ("trends", trends)])
                   200), st')
        | (Throw e, st') => (Throw e, st')
        end
      else
        (Ok (jsonResponse
               (VObj [("error", Js.or_else (Js.prop body "msg")
                                  (VStr "Ecowitt API returned an error."))])
               502), fetched st)
  end.
Proof.
  intros Hc. unfold onRequestGet, mbind, M_bind, settle, lift, mret, M_ret. rewrite Hc.
  rewrite (fetchEcowitt_outcome P History st (logged (EvFetch RealTime) st)).
  destruct (fetchEcowitt P RealTime st) as [r1 st1] eqn:E1.
  pose proof (fetchEcowitt_state P RealTime st) as H1. rewrite E1 in H1. simpl in H1. subst st1.
  destruct (fetchEcowitt P History _) as [r2 st2] eqn:E2.
  pose proof (fetchEcowitt_state P History (logged (EvFetch RealTime) st)) as H2.
  rewrite E2 in H2. simpl in H2. subst st2. rewrite logged_twice. fold (fetched st).
  cbn [fst]. destruct r1 as [body|reason]; [|reflexivity].
  unfold Js.get. destruct (Js.nullish body); [reflexivity|].
  destruct (Js.is_zero_number (Js.prop body "code")); [|reflexivity].
  cbn [negb]. cbv zeta. destruct (trend_history P env _ _) as [[t|e] st']; reflexivity.
Qed.

(** The earlier revision, step by step. *)
Lemma onRequestGet_part_000_unfold P env st :
  credentials_missing env = false ->
  onRequestGet_part_000 P env st =
  match fst (fetchEcowitt P RealTime st) with
  | Throw reason =>
      (Ok (jsonResponse
             (VObj [("error", VStr ("Failed to reach Ecowitt API: " ++ error_to_string reason))])
             502), fetched_part_000 st)
  | Ok body =>
      if Js.nullish body
      then (Throw (TypeError "Cannot read properties of null or undefined (reading 'code')"),
            fetched_part_000 st)
      else if Js.is_zero_number (Js.prop body "code")
      then
        let outcome := history_outcome (fst (fetchEcowitt P History_part_000 st)) in
        match trend_history P env (Js.prop body "data") (fetched_part_000 st) with
        | (Ok trends, st') =>
            (Ok (jsonResponse
                   (VObj [("realtime", Js.prop body "data");
                          ("history", fst outcome);
                          ("trends", trends)])
                   200), st')
        | (Throw e, st') => (Throw e, st')
        end
      else
        (Ok (jsonResponse
               (VObj [("error", Js.or_else (Js.prop body "msg")
                                  (VStr "Ecowitt API returned an error."))])
               502), fetched_part_000 st)
  end.
Proof.
  intros Hc. unfold onRequestGet_part_000, mbind, M_bind, settle, lift, mret, M_ret. rewrite Hc.
  rewrite (fetchEcowitt_outcome P History_part_000 st (logged (EvFetch RealTime) st)).
  destruct (fetchEcowitt P RealTime st) as [r1 st1] eqn:E1.
  pose proof (fetchEcowitt_state P RealTime st) as H1. rewrite E1 in H1. simpl in H1. subst st1.
  destruct (fetchEcowitt P History_part_000 _) as [r2 st2] eqn:E2.
  pose proof (fetchEcowitt_state P History_part_000 (logged (EvFetch RealTime) st)) as H2.
  rewrite E2 in H2. simpl in H2. subst st2. rewrite logged_twice. fold (fetched_part_000 st).
  cbn [fst]. destruct r1 as [body|reason]; [|reflexivity].
  unfold Js.get. destruct (Js.nullish body); [reflexivity|].
  destruct (Js.is_zero_number (Js.prop body "code")); [|reflexivity].
  cbn [negb]. cbv zeta. destruct (trend_history P env _ _) as [[t|e] st']; reflexivity.
Qed.

Lemma onRequestGet_no_credentials P env st :
  credentials_missing env = true ->
  onRequestGet P env st
  = (Ok (jsonResponse
           (VObj [("error", VStr "Server misconfiguration: missing environment variables.")])
           500), st)
  /\ onRequestGet_part_000 P env st = onRequestGet P env st.
Proof. intros H. unfold onRequestGet, onRequestGet_part_000. rewrite H. auto. Qed.

End HandlerFacts.

Import HandlerFacts.






(* ===================================================================== *)
(** * The trend history store, continued *)
(* ===================================================================== *)

Module StoreFacts.

(** A property that holds an array is an own property of the object. *)
Lemma prop_lookup fs k items :
  Js.prop (VObj fs) k = VArr items -> Js.lookup_field k fs = Some (VArr items).
Proof.
  simpl. destruct (Js.lookup_field k fs) as [v|]; simpl; [congruence | discriminate].
Qed.

(** [JSON.stringify] keeps a property that is not [undefined], and
    serialises its value. *)
Lemma prop_json_roundtrip fs k x :
  Js.lookup_field k fs = Some x -> x <> VUndefined ->
  Js.prop (Js.json_roundtrip (VObj fs)) k = Js.json_roundtrip x.
Proof.
  simpl. induction fs as [|[k' v] fs IH]; simpl; [discriminate|].
  destruct (String.eqb k k') eqn:E.
  - intros [= ->] Hx. destruct x; try congruence; simpl; rewrite E; reflexivity.
  - intros H Hx. destruct v; simpl; rewrite ?E; auto.
Qed.

Lemma prop_json_roundtrip_array fs k items :
  Js.prop (VObj fs) k = VArr items ->
  Js.prop (Js.json_roundtrip (VObj fs)) k = VArr (List.map Js.json_roundtrip items).
Proof.
  intros H. rewrite (prop_json_roundtrip fs k (VArr items)); [reflexivity | | discriminate].
  now apply prop_lookup.
Qed.

(** [JSON.stringify] adds no property: a key an object lacks is still
    lacking once it is serialised and read back. *)
Lemma lookup_json_roundtrip_none fs k :
  Js.lookup_field k fs = None ->
  match Js.json_roundtrip (VObj fs) with
  | VObj fs' => Js.lookup_field k fs' = None
  | _ => False
  end.
Proof.
  simpl. induction fs as [|[k' v] fs IH]; simpl; [reflexivity|].
  destruct (String.eqb k k') eqn:E; [discriminate|].
  intros H. destruct v; simpl; rewrite ?E; auto.
Qed.

(** A value that converts to a primitive still does once serialised and
    read back. *)
Lemma to_primitive_throws_roundtrip :
  forall v, Js.to_primitive_throws v = false ->
            Js.to_primitive_throws (Js.json_roundtrip v) = false.
Proof.
  fix IH 1. intros [| |b|x|s|items|fields]; try (intros _; reflexivity).
  - intros _. simpl. destruct (_ || _); reflexivity.
  - cbn [Js.to_primitive_throws Js.json_roundtrip].
    induction items as [|a items IHi]; [reflexivity|].
    cbn [existsb List.map]. intros H. apply orb_false_elim in H as [Ha Hi].
    rewrite (IH a Ha). exact (IHi Hi).
  - intros H.
    assert (Hl : Js.lookup_field "toString" fields = None).
    { simpl in H. destruct (Js.lookup_field "toString" fields); [discriminate | reflexivity]. }
    pose proof (lookup_json_roundtrip_none fields "toString" Hl) as Hr.
    cbn [Js.json_roundtrip] in Hr |- *. cbn [Js.to_primitive_throws].
    rewrite Hr. reflexivity.
Qed.

Lemma ltb_nan_r (c : float) : PrimFloat.ltb c nan = false.
Proof.
  rewrite FloatAxioms.ltb_spec. unfold SFltb.
  change (Prim2SF nan) with S754_nan. destruct (Prim2SF c); reflexivity.
Qed.

(** Only an object whose [time] converts to a number can have it after
    the cutoff. *)
Lemma within_window_object cutoff p :
  within_window cutoff p = true ->
  exists fs t, p = VObj fs /\ Js.lookup_field "time" fs = Some t
               /\ t <> VUndefined /\ Js.to_primitive_throws t = false.
Proof.
  unfold within_window, Js.gt_number, Js.to_number.
  destruct p as [| | | | | |fs]; simpl; try (rewrite ltb_nan_r; discriminate).
  destruct (Js.lookup_field "time" fs) as [t|] eqn:El; simpl;
    [|rewrite ltb_nan_r; discriminate].
  destruct (Js.to_primitive_throws t) eqn:E; [discriminate|].
  intros H. exists fs, t. split; [reflexivity|]. split; [exact El|]. split; [|exact E].
  intros ->. simpl in H. rewrite ltb_nan_r in H. discriminate.
Qed.

(** The samples kept by the trim are still a usable sequence once
    serialised and read back. *)
Lemma sequence_ok_roundtrip cutoff l :
  sequence_ok (VArr (List.map Js.json_roundtrip (List.filter (within_window cutoff) l))) = true.
Proof.
  simpl. apply forallb_forall. intros q Hq.
  apply in_map_iff in Hq as (p & <- & Hp). apply filter_In in Hp as [_ Hw].
  destruct (within_window_object _ _ Hw) as (fs & t & -> & Hl & Hu & Ht).
  unfold sample_ok. rewrite (prop_json_roundtrip fs "time" t Hl Hu).
  rewrite (to_primitive_throws_roundtrip t Ht). reflexivity.
Qed.

(** What a later read finds after a write that went through. *)
Lemma kv_get_after_put kv kv' h ttl st :
  writes_succeed kv = true -> reads_succeed kv' = true ->
  fst (kv_get kv' KV_HISTORY_KEY (snd (kv_put kv KV_HISTORY_KEY (JSON_stringify h) ttl st)))
  = Ok (Js.json_roundtrip h).
Proof.
  intros Hw Hr. unfold kv_put, kv_get. rewrite Hw, Hr. simpl.
  rewrite lookup_insert_eq. reflexivity.
Qed.

(** A read that fails starts the update from the empty history. *)
Lemma kv_get_failing kv st :
  reads_succeed kv = false ->
  starting_history (fst (kv_get kv KV_HISTORY_KEY st)) = empty_history.
Proof. intros H. unfold kv_get. rewrite H. reflexivity. Qed.

(** The history a completed merge returns, serialised and read back, is
    adopted by the next update as it is, and is usable. *)
Lemma merged_roundtrip now data h h' :
  merge_readings now data h = Ok h' ->
  exists lp lt,
    Js.prop h' "pressure" = VArr lp /\ Js.prop h' "temperature" = VArr lt
    /\ starting_history (Ok (Js.json_roundtrip h')) = Js.json_roundtrip h'
    /\ Js.prop (Js.json_roundtrip h') "pressure" = VArr (List.map Js.json_roundtrip lp)
    /\ Js.prop (Js.json_roundtrip h') "temperature" = VArr (List.map Js.json_roundtrip lt)
    /\ history_ok (Js.json_roundtrip h') = true.
Proof.
  intros E. apply merge_readings_ok in E as (rp & rt & lp & lt & _ & _ & _ & _ & _ & Hp & Ht).
  destruct (prop_array_object _ _ _ Hp) as [fs ->].
  pose proof (prop_json_roundtrip_array _ _ _ Hp) as Rp.
  pose proof (prop_json_roundtrip_array _ _ _ Ht) as Rt.
  eexists. eexists. split; [exact Hp|]. split; [exact Ht|].
  split; [|split; [exact Rp|split; [exact Rt|]]].
  - unfold starting_history. rewrite Rp, Rt. reflexivity.
  - unfold history_ok. rewrite Rp, Rt, !sequence_ok_roundtrip. reflexivity.
Qed.

(** The state an update leaves: the read logged, and the write when the
    merge completed. *)
Lemma updateTrendHistory_state P kv data st :
  snd (updateTrendHistory P kv data st)
  = match fst (updateTrendHistory P kv data st) with
    | Ok h => snd (kv_put kv KV_HISTORY_KEY (JSON_stringify h) (49 * 3600)
                     (logged (EvKvGet KV_HISTORY_KEY) st))
    | Throw _ => logged (EvKvGet KV_HISTORY_KEY) st
    end.
Proof.
  rewrite updateTrendHistory_unfold. cbv zeta.
  assert (Hread : snd (kv_get kv KV_HISTORY_KEY st) = logged (EvKvGet KV_HISTORY_KEY) st).
  { unfold kv_get. destruct (reads_succeed kv); [|reflexivity]. cbv zeta.
    destruct (kv_data _ !! KV_HISTORY_KEY) as [e|]; [destruct (entry_blob e)|]; reflexivity. }
  rewrite Hread. destruct (merge_readings _ _ _); reflexivity.
Qed.

(** What a write leaves, whether it goes through or not. *)
Lemma kv_put_state kv key text ttl st :
  calls (snd (kv_put kv key text ttl st)) = (calls st ++ [EvKvPut key text ttl])%list
  /\ forall k, k <> key -> kv_data (snd (kv_put kv key text ttl st)) !! k = kv_data st !! k.
Proof.
  unfold kv_put. destruct (writes_succeed kv); simpl; split; try reflexivity.
  intros k Hk. rewrite lookup_insert_ne by congruence. reflexivity.
Qed.

(** With the clock value inside its own window, the trim keeps the new
    sample. *)
Lemma filter_new_samples convert now raw l :
  PrimFloat.ltb (cutoff_at now) now = true ->
  List.filter (within_window (cutoff_at now)) (l ++ new_samples convert now raw)
  = (List.filter (within_window (cutoff_at now)) l ++ new_samples convert now raw)%list.
Proof.
  intros Hnow. rewrite List.filter_app. f_equal.
  destruct raw as [x|]; [|reflexivity].
  cbn [new_samples List.filter].
  assert (Hw : within_window (cutoff_at now) (sample now (convert x)) = true) by exact Hnow.
  rewrite Hw. reflexivity.
Qed.

End StoreFacts.

Import StoreFacts.

(** X4.  The returned history, exactly: the readings of the payload were
    read, and each sequence holds the samples the update started from
    and the sample of the current reading, when there is one, those that
    pass the test of the window, in their order; every other property of
    the value the update started from is returned as it was.  With the
    clock value inside its own window the new sample passes the test:
    each sequence is then the starting samples inside the window followed
    by the sample of the current reading, and by nothing in its place
    when the reading is absent. *)
Theorem updateTrendHistory_result P kv realtimeData st history :
  fst (updateTrendHistory P kv realtimeData st) = Ok history ->
  let start := starting_history (fst (kv_get kv KV_HISTORY_KEY st)) in
  let kept := List.filter (within_window (cutoff_at (Date_now P))) in
  exists pressure temperature,
    rawPressure realtimeData = Ok pressure
    /\ rawTemp realtimeData = Ok temperature
    /\ Js.prop history "pressure"
       = VArr (kept (Js.items_of (Js.prop start "pressure")
                     ++ new_samples inHgToHPa (Date_now P) pressure)%list)
    /\ Js.prop history "temperature"
       = VArr (kept (Js.items_of (Js.prop start "temperature")
                     ++ new_samples fToC (Date_now P) temperature)%list)
    /\ (forall k, k <> "pressure" -> k <> "temperature" ->
          Js.prop history k = Js.prop start k)
    /\ (PrimFloat.ltb (cutoff_at (Date_now P)) (Date_now P) = true ->
        Js.prop history "pressure"
        = VArr (kept (Js.items_of (Js.prop start "pressure"))
                ++ new_samples inHgToHPa (Date_now P) pressure)%list
        /\ Js.prop history "temperature"
           = VArr (kept (Js.items_of (Js.prop start "temperature"))
                   ++ new_samples fToC (Date_now P) temperature)%list).
Proof.
  rewrite updateTrendHistory_unfold. cbv zeta.
  destruct (merge_readings _ _ _) as [h|e] eqn:E; [|discriminate].
  intros [= ->].
  pose proof (merge_readings_other _ _ _ _ E) as Ho.
  apply merge_readings_ok in E as (rp & rt & lp & lt & Hrp & Hrt & Hlp & Hlt & _ & Hp & Ht).
  exists rp, rt. rewrite Hlp, Hlt. cbn [Js.items_of].
  repeat (split; [assumption|]).
  intros Hnow. rewrite Hp, Ht, !(filter_new_samples _ _ _ _ Hnow). auto.
Qed.

Lemma updateTrendHistory_result_witness :
  let st := fresh (Scenario.stored Scenario.boundary_history) in
  fst (updateTrendHistory Scenario.all_up Scenario.healthy_kv (Scenario.reading "29.8" "n/a") st)
  = Ok (VObj [("pressure", VArr [sample 1699999999000 1012; sample Scenario.now (inHgToHPa 29.8)]);
              ("temperature", VArr [sample 1699999999000 21])])
  /\ PrimFloat.ltb (cutoff_at Scenario.now) Scenario.now = true
  /\ exists pressure temperature,
       rawPressure (Scenario.reading "29.8" "n/a") = Ok pressure
       /\ rawTemp (Scenario.reading "29.8" "n/a") = Ok temperature
       /\ Js.prop (VObj [("pressure", VArr [sample 1699999999000 1012;
                                            sample Scenario.now (inHgToHPa 29.8)]);
                         ("temperature", VArr [sample 1699999999000 21])]) "pressure"
          = VArr (List.filter (within_window (cutoff_at Scenario.now))
                    (Js.items_of (Js.prop Scenario.boundary_history "pressure"))
                  ++ new_samples inHgToHPa Scenario.now pressure)%list.
Proof.
  cbv zeta.
  assert (Hrun : fst (updateTrendHistory Scenario.all_up Scenario.healthy_kv
                        (Scenario.reading "29.8" "n/a")
                        (fresh (Scenario.stored Scenario.boundary_history)))
                 = Ok (VObj [("pressure", VArr [sample 1699999999000 1012;
                                                sample Scenario.now (inHgToHPa 29.8)]);
                             ("temperature", VArr [sample 1699999999000 21])]))
    by (vm_compute; reflexivity).
  assert (Hnow : PrimFloat.ltb (cutoff_at Scenario.now) Scenario.now = true)
    by (vm_compute; reflexivity).
  split; [exact Hrun|]. split; [exact Hnow|].
  destruct (updateTrendHistory_result _ _ _ _ _ Hrun)
    as (rp & rt & Hrp & Hrt & _ & _ & _ & Hc).
  exists rp, rt. split; [exact Hrp|]. split; [exact Hrt|].
  exact (proj1 (Hc Hnow)).
Defined.

(** X5.  An update that completes and whose write goes through leaves
    under [KV_HISTORY_KEY] a value every later update can process: the
    next [updateTrendHistory], whatever its binding and clock, does not
    throw when the readings of its payload can be read, and when its read
    goes through it starts from the history just returned, as
    [JSON.stringify] wrote it. *)
Theorem updateTrendHistory_successive P kv realtimeData st history P' kv' realtimeData' :
  writes_succeed kv = true ->
  fst (updateTrendHistory P kv realtimeData st) = Ok history ->
  readings_ok realtimeData' = true ->
  exists next pressure temperature,
    fst (updateTrendHistory P' kv' realtimeData' (snd (updateTrendHistory P kv realtimeData st)))
    = Ok next
    /\ rawPressure realtimeData' = Ok pressure
    /\ rawTemp realtimeData' = Ok temperature
    /\ (reads_succeed kv' = true ->
        let kept := List.filter (within_window (cutoff_at (Date_now P'))) in
        Js.prop next "pressure"
        = VArr (kept (List.map Js.json_roundtrip (Js.items_of (Js.prop history "pressure"))
                      ++ new_samples inHgToHPa (Date_now P') pressure)%list)
        /\ Js.prop next "temperature"
           = VArr (kept (List.map Js.json_roundtrip (Js.items_of (Js.prop history "temperature"))
                         ++ new_samples fToC (Date_now P') temperature)%list)).
Proof.
  intros Hw. rewrite (updateTrendHistory_unfold P). cbv zeta.
  destruct (merge_readings _ _ _) as [h|e] eqn:E; [|discriminate].
  intros [= ->] Hr'. cbn [snd].
  destruct (merged_roundtrip _ _ _ _ E) as (lp & lt & Hp & Ht & Hs & Rp & Rt & Hok).
  pose proof (proj1 (readings_ok_iff realtimeData') Hr') as (rp & rt & Hrp & Hrt).
  rewrite updateTrendHistory_unfold. cbv zeta.
  destruct (reads_succeed kv') eqn:Hr.
  - rewrite (kv_get_after_put _ _ _ _ _ Hw Hr), Hs.
    destruct (merge_readings_total (Date_now P') realtimeData' _ Hok Hr') as [next En].
    rewrite En. exists next, rp, rt. repeat (split; [first [reflexivity | assumption]|]).
    intros _.
    apply merge_readings_ok in En
      as (rp' & rt' & lp' & lt' & Hrp' & Hrt' & Hp' & Ht' & _ & Np & Nt).
    rewrite Hp' in Rp. rewrite Ht' in Rt. injection Rp as ->. injection Rt as ->.
    rewrite Hrp in Hrp'. rewrite Hrt in Hrt'. injection Hrp' as <-. injection Hrt' as <-.
    rewrite Hp, Ht. auto.
  - rewrite (kv_get_failing _ _ Hr), (merge_readings_empty _ _ _ _ Hrp Hrt).
    eexists. exists rp, rt. repeat (split; [first [reflexivity | assumption]|]).
    discriminate.
Qed.

Lemma updateTrendHistory_successive_witness :
  let first := updateTrendHistory Scenario.all_up Scenario.healthy_kv
                 (Scenario.reading "29.8" "32") (fresh ∅) in
  let later := Platform (fetch Scenario.all_up) 1700000060000 in
  writes_succeed Scenario.healthy_kv = true
  /\ fst first = Ok Scenario.first_history
  /\ readings_ok (Scenario.reading "29.9" "33") = true
  /\ fst (updateTrendHistory later Scenario.healthy_kv (Scenario.reading "29.9" "33") (snd first))
     = Ok (VObj [("pressure", VArr [sample Scenario.now (inHgToHPa 29.8);
                                    sample 1700000060000 (inHgToHPa 29.9)]);
                 ("temperature", VArr [sample Scenario.now (fToC 32);
                                       sample 1700000060000 (fToC 33)])]).
Proof.
  cbv zeta.
  assert (Hrun : fst (updateTrendHistory Scenario.all_up Scenario.healthy_kv
                        (Scenario.reading "29.8" "32") (fresh ∅))
                 = Ok Scenario.first_history) by (vm_compute; reflexivity).
  assert (Hr : readings_ok (Scenario.reading "29.9" "33") = true)
    by (vm_compute; reflexivity).
  split; [reflexivity|]. split; [exact Hrun|]. split; [exact Hr|].
  destruct (updateTrendHistory_successive Scenario.all_up Scenario.healthy_kv
              (Scenario.reading "29.8" "32") (fresh ∅) Scenario.first_history
              (Platform (fetch Scenario.all_up) 1700000060000) Scenario.healthy_kv
              (Scenario.reading "29.9" "33") eq_refl Hrun Hr) as (next & rp & rt & Hn & _).
  rewrite Hn. vm_compute in Hn. injection Hn as <-. vm_compute. reflexivity.
Defined.

(** X6.  [updateTrendHistory] touches the namespace under [KV_HISTORY_KEY]
    only: the entry of every other key is what it was.  It reads once and
    then writes once; when it throws it has read and not written, and the
    namespace is as it was. *)
Theorem updateTrendHistory_kv_discipline P kv realtimeData st :
  let run := updateTrendHistory P kv realtimeData st in
  (forall key, key <> KV_HISTORY_KEY -> kv_data (snd run) !! key = kv_data st !! key)
  /\ (forall history, fst run = Ok history ->
        calls (snd run)
        = (calls st ++ [EvKvGet KV_HISTORY_KEY;
                        EvKvPut KV_HISTORY_KEY (JSON_stringify history) (49 * 3600)])%list)
  /\ (forall e, fst run = Throw e ->
        snd run = State (kv_data st) (calls st ++ [EvKvGet KV_HISTORY_KEY])).
Proof.
  cbv zeta. rewrite updateTrendHistory_state.
  destruct (fst (updateTrendHistory P kv realtimeData st)) as [h|e].
  - destruct (kv_put_state kv KV_HISTORY_KEY (JSON_stringify h) (49 * 3600)
                (logged (EvKvGet KV_HISTORY_KEY) st)) as [Hc Hd].
    split; [exact Hd|]. split; [|discriminate].
    intros history [= ->]. rewrite Hc. simpl. now rewrite <- app_assoc.
  - split; [reflexivity|]. split; [discriminate | reflexivity].
Qed.

(** * The request handler, continued *)
(* ===================================================================== *)


(** X7.  Every answer of [onRequestGet] carries the CORS headers, the ones the
    preflight answer of [onRequestOptions] carries, and its status tells
    what happened: 500 only when a credential is missing (and then
    nothing was called), 502 only when the current-reading fetch failed,
    with the reason as its error, and 200 only when it succeeded, with
    the data of its body under [realtime]. *)
Theorem onRequestGet_response_cases P env st r :
  fst (onRequestGet P env st) = Ok r ->
  resp_headers r = CORS_HEADERS
  /\ resp_headers onRequestOptions = resp_headers r
  /\ ((resp_status r = 500 /\ credentials_missing env = true
       /\ snd (onRequestGet P env st) = st)
      \/ (resp_status r = 502 /\ credentials_missing env = false
          /\ exists reason, realtime_failure P reason
               /\ resp_data r = VObj [("error", reason)])
      \/ (resp_status r = 200 /\ credentials_missing env = false
          /\ exists body, realtime_success P body
               /\ Js.prop (resp_data r) "realtime" = Js.prop body "data")).
Proof.
  destruct (credentials_missing env) eqn:Hc.
  - destruct (onRequestGet_no_credentials P env st Hc) as [-> _].
    intros [= <-]. auto 6.
  - rewrite (onRequestGet_unfold P env st Hc).
    destruct (fst (fetchEcowitt P RealTime st)) as [body|reason] eqn:E.
    + apply fetch_outcome_fulfilled in E.
      destruct (Js.nullish body) eqn:Hn; [discriminate|].
      destruct (Js.is_zero_number (Js.prop body "code")) eqn:Hz.
      * cbv zeta. destruct (trend_history P env _ _) as [[t|e] st']; [|discriminate].
        intros [= <-]. split; [reflexivity|]. split; [reflexivity|].
        right. right. split; [reflexivity|]. split; [reflexivity|].
        exists body. split; [split; assumption | reflexivity].
      * intros [= <-]. split; [reflexivity|]. split; [reflexivity|].
        right. left. split; [reflexivity|]. split; [reflexivity|].
        eexists. split; [apply realtime_error_code; eassumption | reflexivity].
    + apply fetch_outcome_rejected in E.
      intros [= <-]. split; [reflexivity|]. split; [reflexivity|].
      right. left. split; [reflexivity|]. split; [reflexivity|].
      eexists. split; [apply realtime_rejected; eassumption | reflexivity].
Qed.

Lemma onRequestGet_response_cases_witness :
  let r := jsonResponse
             (VObj [("error", VStr "Failed to reach Ecowitt API: Error: HTTP 503")]) 502 in
  fst (onRequestGet Scenario.realtime_down Scenario.configured (fresh ∅)) = Ok r
  /\ resp_headers r = CORS_HEADERS
  /\ resp_headers onRequestOptions = resp_headers r.
Proof.
  cbv zeta.
  assert (Hrun : fst (onRequestGet Scenario.realtime_down Scenario.configured (fresh ∅))
                 = Ok (jsonResponse
                         (VObj [("error", VStr "Failed to reach Ecowitt API: Error: HTTP 503")])
                         502)) by (vm_compute; reflexivity).
  split; [exact Hrun|].
  destruct (onRequestGet_response_cases _ _ _ _ Hrun) as (H1 & H2 & _).
  split; [exact H1 | exact H2].
Defined.

(** What the update returns depends on the stored data alone. *)
Lemma updateTrendHistory_data P kv data st st2 :
  kv_data st = kv_data st2 ->
  fst (updateTrendHistory P kv data st) = fst (updateTrendHistory P kv data st2).
Proof.
  intros H. rewrite !updateTrendHistory_unfold. cbv zeta.
  rewrite (kv_get_data kv KV_HISTORY_KEY st st2 H).
  destruct (merge_readings _ _ _); reflexivity.
Qed.

Lemma kv_put_data kv key text ttl st :
  kv_data (snd (kv_put kv key text ttl st))
  = if writes_succeed kv then <[key := KvEntry text ttl]> (kv_data st) else kv_data st.
Proof. unfold kv_put. destruct (writes_succeed kv); reflexivity. Qed.

(** The trends step from two states that hold the same data: the same
    outcome, the same data left, and the same KV calls, at most a read
    and then a write under [KV_HISTORY_KEY]. *)
Lemma trend_history_states P env data s1 s2 :
  kv_data s1 = kv_data s2 ->
  fst (trend_history P env data s1) = fst (trend_history P env data s2)
  /\ kv_data (snd (trend_history P env data s2)) = kv_data (snd (trend_history P env data s1))
  /\ (forall key, key <> KV_HISTORY_KEY ->
        kv_data (snd (trend_history P env data s1)) !! key = kv_data s1 !! key)
  /\ exists kvs,
       calls (snd (trend_history P env data s1)) = (calls s1 ++ kvs)%list
       /\ calls (snd (trend_history P env data s2)) = (calls s2 ++ kvs)%list
       /\ (kvs = []
           \/ kvs = [EvKvGet KV_HISTORY_KEY]
           \/ exists text,
                kvs = [EvKvGet KV_HISTORY_KEY; EvKvPut KV_HISTORY_KEY text (49 * 3600)]).
Proof.
  intros Hd. unfold trend_history. destruct (WEATHER_KV env) as [kv|].
  - pose proof (updateTrendHistory_data P kv data s1 s2 Hd) as Hf.
    rewrite (updateTrendHistory_state P kv data s1), (updateTrendHistory_state P kv data s2).
    rewrite <- Hf. split; [reflexivity|].
    destruct (fst (updateTrendHistory P kv data s1)) as [h|e].
    + destruct (kv_put_state kv KV_HISTORY_KEY (JSON_stringify h) (49 * 3600)
                  (logged (EvKvGet KV_HISTORY_KEY) s1)) as [Hc1 Hk1].
      destruct (kv_put_state kv KV_HISTORY_KEY (JSON_stringify h) (49 * 3600)
                  (logged (EvKvGet KV_HISTORY_KEY) s2)) as [Hc2 _].
      split; [rewrite !kv_put_data; cbn [logged kv_data]; rewrite Hd; reflexivity|].
      split; [exact Hk1|].
      eexists. rewrite Hc1, Hc2. cbn [logged calls]. rewrite <- !app_assoc.
      split; [reflexivity|]. split; [reflexivity|]. right. right. eexists. reflexivity.
    + cbn [logged kv_data calls]. split; [symmetry; exact Hd|]. split; [reflexivity|].
      eexists. split; [reflexivity|]. split; [reflexivity|]. right. left. reflexivity.
  - unfold mret, M_ret. cbn [fst snd]. split; [reflexivity|]. split; [symmetry; exact Hd|].
    split; [reflexivity|]. exists []. rewrite !app_nil_r. auto.
Qed.

(** X8.  With the credentials present, a request makes the two upstream calls,
    the current reading and then the history, whatever their outcomes:
    neither is skipped or repeated.  The KV namespace is reached after
    them only, by at most one read followed by at most one write, both
    under [KV_HISTORY_KEY]; the entry of every other key is left as it
    was.  The earlier revision makes the same calls, the history one to
    the URL it builds, and leaves the same data. *)
Theorem onRequestGet_call_order P env st :
  credentials_missing env = false ->
  let st' := snd (onRequestGet P env st) in
  let st0 := snd (onRequestGet_part_000 P env st) in
  kv_data st0 = kv_data st'
  /\ (forall key, key <> KV_HISTORY_KEY -> kv_data st' !! key = kv_data st !! key)
  /\ exists kvs,
       calls st' = (calls st ++ [EvFetch RealTime; EvFetch History] ++ kvs)%list
       /\ calls st0
          = (calls st ++ [EvFetch RealTime; EvFetch History_part_000] ++ kvs)%list
       /\ (kvs = []
           \/ kvs = [EvKvGet KV_HISTORY_KEY]
           \/ exists text,
                kvs = [EvKvGet KV_HISTORY_KEY; EvKvPut KV_HISTORY_KEY text (49 * 3600)]).
Proof.
  intros Hc. cbv zeta.
  rewrite (onRequestGet_unfold P env st Hc), (onRequestGet_part_000_unfold P env st Hc).
  assert (Hnone : kv_data (fetched_part_000 st) = kv_data (fetched st)
                  /\ (forall key, key <> KV_HISTORY_KEY ->
                        kv_data (fetched st) !! key = kv_data st !! key)
                  /\ exists kvs,
                       calls (fetched st)
                       = (calls st ++ [EvFetch RealTime; EvFetch History] ++ kvs)%list
                       /\ calls (fetched_part_000 st)
                          = (calls st ++ [EvFetch RealTime; EvFetch History_part_000]
                             ++ kvs)%list
                       /\ (kvs = []
                           \/ kvs = [EvKvGet KV_HISTORY_KEY]
                           \/ exists text,
                                kvs = [EvKvGet KV_HISTORY_KEY;
                                       EvKvPut KV_HISTORY_KEY text (49 * 3600)])).
  { split; [reflexivity|]. split; [reflexivity|]. exists []. auto. }
  destruct (fst (fetchEcowitt P RealTime st)) as [body|reason]; [|exact Hnone].
  destruct (Js.nullish body); [exact Hnone|].
  destruct (Js.is_zero_number (Js.prop body "code")); [|exact Hnone].
  cbv zeta.
  destruct (trend_history_states P env (Js.prop body "data") (fetched st)
              (fetched_part_000 st) eq_refl) as (Hf & Hd & Hk & kvs & Hc1 & Hc2 & Hkvs).
  destruct (trend_history P env (Js.prop body "data") (fetched st)) as [[t|e] s1];
    destruct (trend_history P env (Js.prop body "data") (fetched_part_000 st))
      as [[t0|e0] s2];
    cbn [fst snd] in *; try discriminate;
    (split; [exact Hd|]); (split; [exact Hk|]);
    exists kvs; rewrite Hc1, Hc2; cbn [fetched fetched_part_000 calls];
    rewrite <- !app_assoc; auto.
Qed.

Lemma onRequestGet_call_order_witness :
  credentials_missing Scenario.configured = false
  /\ kv_data (snd (onRequestGet_part_000 Scenario.all_up Scenario.configured (fresh ∅)))
     = kv_data (snd (onRequestGet Scenario.all_up Scenario.configured (fresh ∅)))
  /\ calls (snd (onRequestGet Scenario.realtime_down Scenario.configured (fresh ∅)))
     = [EvFetch RealTime; EvFetch History]
  /\ exists h,
       calls (snd (onRequestGet Scenario.all_up Scenario.configured (fresh ∅)))
       = [EvFetch RealTime; EvFetch History; EvKvGet KV_HISTORY_KEY;
          EvKvPut KV_HISTORY_KEY (JSON_stringify h) (49 * 3600)]
       /\ calls (snd (onRequestGet_part_000 Scenario.all_up Scenario.configured (fresh ∅)))
          = [EvFetch RealTime; EvFetch History_part_000; EvKvGet KV_HISTORY_KEY;
             EvKvPut KV_HISTORY_KEY (JSON_stringify h) (49 * 3600)].
Proof.
  split; [reflexivity|].
  split; [exact (proj1 (onRequestGet_call_order Scenario.all_up Scenario.configured
                          (fresh ∅) eq_refl))|].
  split; [vm_compute; reflexivity|].
  exists Scenario.first_history. split; vm_compute; reflexivity.
Defined.



(** X10.  In a 200 answer of the later revision, [history_error] tells what
    the history call did: it is [null] exactly when the call was
    fulfilled with status code 0; it is [{code, msg}] of the body when the
    call was fulfilled with another code, and [{msg}] with the message of
    the rejection (or ['fetch failed'] when that is empty) when it was
    rejected.  Whenever it is not [null], [history] is [null]. *)
Theorem onRequestGet_history_error P env st r :
  fst (onRequestGet P env st) = Ok r ->
  resp_status r = 200 ->
  (forall hbody, fetch_fulfilled P History hbody ->
     Js.prop (resp_data r) "history_error"
     = if Js.is_zero_number (Js.opt_get hbody "code") then VNull
       else VObj [("code", Js.opt_get hbody "code"); ("msg", Js.opt_get hbody "msg")])
  /\ (forall e, fetch_rejected P History e ->
        Js.prop (resp_data r) "history_error"
        = VObj [("msg", VStr (if Lexer.is_empty (error_message e) then "fetch failed"
                              else error_message e))])
  /\ (Js.prop (resp_data r) "history_error" = VNull
      <-> exists hbody, fetch_fulfilled P History hbody
                        /\ Js.is_zero_number (Js.opt_get hbody "code") = true)
  /\ (Js.prop (resp_data r) "history_error" <> VNull ->
      Js.prop (resp_data r) "history" = VNull).
Proof.
  destruct (credentials_missing env) eqn:Hc.
  { destruct (onRequestGet_no_credentials P env st Hc) as [-> _].
    intros [= <-]. discriminate. }
  rewrite (onRequestGet_unfold P env st Hc).
  destruct (fst (fetchEcowitt P RealTime st)) as [body|reason];
    [|intros [= <-]; discriminate].
  destruct (Js.nullish body); [discriminate|].
  destruct (Js.is_zero_number (Js.prop body "code")); [|intros [= <-]; discriminate].
  cbv zeta. destruct (trend_history P env _ _) as [[t|e] st']; [|discriminate].
  intros [= <-] _. cbn [resp_data jsonResponse].
  change (Js.prop (VObj ?fs) "history_error")
    with (snd (history_outcome (fst (fetchEcowitt P History st)))).
  change (Js.prop (VObj ?fs) "history")
    with (fst (history_outcome (fst (fetchEcowitt P History st)))).
  destruct (fst (fetchEcowitt P History st)) as [hb|he] eqn:E.
  - apply fetch_outcome_fulfilled in E.
    assert (Huniq : forall hbody, fetch_fulfilled P History hbody -> hbody = hb).
    { intros hbody H. apply fetch_fulfilled_outcome with (st := st) in H.
      apply fetch_fulfilled_outcome with (st := st) in E. congruence. }
    unfold history_outcome.
    destruct (Js.is_zero_number (Js.opt_get hb "code")) eqn:Hz; cbn [fst snd].
    + split; [intros hbody H; rewrite (Huniq _ H), Hz; reflexivity|].
      split; [intros e' H; apply fetch_rejected_outcome with (st := st) in H;
              apply fetch_fulfilled_outcome with (st := st) in E; congruence|].
      split; [split; eauto | congruence].
    + split; [intros hbody H; rewrite (Huniq _ H), Hz; reflexivity|].
      split; [intros e' H; apply fetch_rejected_outcome with (st := st) in H;
              apply fetch_fulfilled_outcome with (st := st) in E; congruence|].
      split; [|reflexivity].
      split; [discriminate|]. intros (hbody & H & Hz'). rewrite (Huniq _ H) in Hz'. congruence.
  - apply fetch_outcome_rejected in E.
    assert (Huniq : forall e', fetch_rejected P History e' -> e' = he).
    { intros e' H. apply fetch_rejected_outcome with (st := st) in H.
      apply fetch_rejected_outcome with (st := st) in E. congruence. }
    unfold history_outcome. cbn [fst snd].
    split; [intros hbody H; apply fetch_fulfilled_outcome with (st := st) in H;
            apply fetch_rejected_outcome with (st := st) in E; congruence|].
    split.
    { intros e' H. rewrite (Huniq _ H). unfold Js.or_else. simpl.
      destruct (Lexer.is_empty (error_message he)); reflexivity. }
    split; [|reflexivity].
    split; [discriminate|]. intros (hbody & H & _).
    apply fetch_fulfilled_outcome with (st := st) in H.
    apply fetch_rejected_outcome with (st := st) in E. congruence.
Qed.

Lemma onRequestGet_history_error_witness :
  let r := jsonResponse
             (VObj [("realtime", Scenario.reading "29.8" "32");
                    ("history", VNull);
                    ("history_error", VObj [("msg", VStr "HTTP 503")]);
                    ("trends", empty_history)]) 200 in
  fst (onRequestGet Scenario.history_down Scenario.without_kv (fresh ∅)) = Ok r
  /\ resp_status r = 200
  /\ fetch_rejected Scenario.history_down History (Error "HTTP 503")
  /\ Js.prop (resp_data r) "history_error" = VObj [("msg", VStr "HTTP 503")].
Proof.
  cbv zeta.
  assert (Hrun : fst (onRequestGet Scenario.history_down Scenario.without_kv (fresh ∅))
                 = Ok (jsonResponse
                         (VObj [("realtime", Scenario.reading "29.8" "32");
                                ("history", VNull);
                                ("history_error", VObj [("msg", VStr "HTTP 503")]);
                                ("trends", empty_history)]) 200))
    by (vm_compute; reflexivity).
  assert (Hr : fetch_rejected Scenario.history_down History (Error "HTTP 503")).
  { apply (rejected_by_status Scenario.history_down History
             (Response false 503 (Throw (SyntaxError "Unexpected token < in JSON"))));
      reflexivity. }
  split; [exact Hrun|]. split; [reflexivity|]. split; [exact Hr|].
  exact (proj1 (proj2 (onRequestGet_history_error _ _ _ _ Hrun eq_refl)) _ Hr).
Defined.

(** X11.  [onRequestGet] throws, answering nothing, in these situations
    only, all with the credentials present and the current-reading call
    fulfilled: its body is [null]; or its status code is 0, there is a KV
    binding, and either the binding holds under [KV_HISTORY_KEY] a value
    the update cannot process or a reading of the payload cannot be read
    ([parseFloat] throws on its value field).  In every other situation
    it returns a response. *)
Theorem onRequestGet_throws_iff P env st :
  (exists e, fst (onRequestGet P env st) = Throw e)
  <-> credentials_missing env = false
      /\ exists body, fetch_fulfilled P RealTime body
           /\ (Js.nullish body = true
               \/ (Js.is_zero_number (Js.prop body "code") = true
                   /\ exists kv, WEATHER_KV env = Some kv
                        /\ (store_usable kv st = false
                            \/ readings_ok (Js.prop body "data") = false))).
Proof.
  destruct (credentials_missing env) eqn:Hc.
  { destruct (onRequestGet_no_credentials P env st Hc) as [-> _].
    split; [intros [e He]; discriminate | intros [? _]; discriminate]. }
  rewrite (onRequestGet_unfold P env st Hc).
  assert (Hkv : forall kv data,
            (exists e, fst (updateTrendHistory P kv data (fetched st)) = Throw e)
            <-> store_usable kv st = false \/ readings_ok data = false).
  { intros kv data.
    rewrite (store_usable_data kv st (fetched st) eq_refl).
    pose proof (updateTrendHistory_completes_iff P kv data (fetched st)) as [H1 H2].
    destruct (fst (updateTrendHistory P kv data (fetched st))) as [h|e]; split.
    - intros [e He]. discriminate.
    - destruct (H1 ltac:(eauto)) as [-> ->]. intros [H|H]; discriminate.
    - intros _. destruct (store_usable kv (fetched st)); [|auto].
      destruct (readings_ok data); [|auto].
      destruct (H2 (conj eq_refl eq_refl)) as [h Hh]. discriminate.
    - eauto. }
  destruct (fst (fetchEcowitt P RealTime st)) as [body|reason] eqn:E.
  - pose proof (fetch_outcome_fulfilled _ _ _ _ E) as Hb.
    assert (Huniq : forall b, fetch_fulfilled P RealTime b -> b = body).
    { intros b H. apply fetch_fulfilled_outcome with (st := st) in H. congruence. }
    destruct (Js.nullish body) eqn:Hn.
    { split; [intros _; split; [reflexivity|]; exists body; auto | eauto]. }
    destruct (Js.is_zero_number (Js.prop body "code")) eqn:Hz.
    + cbv zeta. unfold trend_history. destruct (WEATHER_KV env) as [kv|] eqn:Ek.
      * specialize (Hkv kv (Js.prop body "data")).
        destruct (updateTrendHistory P kv (Js.prop body "data") (fetched st)) as [[t|e] st'];
          cbn [fst] in Hkv |- *; split.
        -- intros [e He]. discriminate.
        -- intros (_ & b & H & [Hnb|(_ & kv' & [= <-] & Hu)]).
           ++ rewrite (Huniq _ H) in Hnb. congruence.
           ++ rewrite (Huniq _ H) in Hu. apply Hkv in Hu as [e He]. discriminate.
        -- intros _. split; [reflexivity|]. exists body. split; [assumption|].
           right. split; [assumption|]. exists kv. split; [reflexivity|].
           apply Hkv. eauto.
        -- eauto.
      * unfold mret, M_ret. split; [intros [e He]; discriminate|].
        intros (_ & b & H & [Hnb|(_ & kv' & Hk & _)]); [|discriminate].
        rewrite (Huniq _ H) in Hnb. congruence.
    + split; [intros [e He]; discriminate|].
      intros (_ & b & H & [Hnb|(Hzb & _)]); rewrite (Huniq _ H) in *; congruence.
  - split; [intros [e He]; discriminate|].
    intros (_ & b & H & _). apply fetch_fulfilled_outcome with (st := st) in H. congruence.
Qed.

(** A reading that cannot be read: with a KV binding the handler throws
    at [parseFloat]; without one it never reads it, and answers 200. *)
Example onRequestGet_unreadable_reading :
  let data :=
    VObj [("pressure",
           VObj [("relative", VObj [("value", VObj [("toString", VNum 1)])])])] in
  let P := Platform (fun _ => Scenario.http_ok (Scenario.success_body data)) Scenario.now in
  readings_ok data = false
  /\ onRequestGet P Scenario.configured (fresh ∅)
     = (Throw Js.cannot_convert,
        State ∅ [EvFetch RealTime; EvFetch History; EvKvGet KV_HISTORY_KEY])
  /\ fst (onRequestGet P Scenario.without_kv (fresh ∅))
     = Ok (jsonResponse
             (VObj [("realtime", data);
                    ("history", data);
                    ("history_error", VNull);
                    ("trends", empty_history)]) 200).
Proof. cbv zeta. repeat split; vm_compute; reflexivity. Qed.

(** X12.  The two revisions of [onRequestGet] fetch the history from
    different URLs.  Whatever upstream answers to either, they throw the
    same error or answer with the same status and headers, leave the same
    data in the namespace, and their bodies agree on every property but
    [history] and [history_error]; the earlier revision never sets
    [history_error].  When upstream answers the two history URLs alike,
    the bodies agree on [history] too. *)
Theorem onRequestGet_revisions_agree P env st :
  kv_data (snd (onRequestGet_part_000 P env st)) = kv_data (snd (onRequestGet P env st))
  /\ match fst (onRequestGet_part_000 P env st), fst (onRequestGet P env st) with
     | Ok r0, Ok r =>
         resp_status r0 = resp_status r
         /\ resp_headers r0 = resp_headers r
         /\ Js.prop (resp_data r0) "history_error" = VUndefined
         /\ (forall k, k <> "history_error" -> k <> "history" ->
               Js.prop (resp_data r0) k = Js.prop (resp_data r) k)
         /\ (fetch P History_part_000 = fetch P History ->
             Js.prop (resp_data r0) "history" = Js.prop (resp_data r) "history")
     | Throw e0, Throw e => e0 = e
     | _, _ => False
     end.
Proof.
  assert (Hsame : fetch P History_part_000 = fetch P History ->
                  fst (fetchEcowitt P History_part_000 st) = fst (fetchEcowitt P History st)).
  { intros H. unfold fetchEcowitt. rewrite H.
    destruct (fetch P History) as [r|e]; [destruct (ok r)|]; reflexivity. }
  destruct (credentials_missing env) eqn:Hc.
  { destruct (onRequestGet_no_credentials P env st Hc) as [H ->]. rewrite H.
    cbn. auto 6. }
  rewrite (onRequestGet_unfold P env st Hc), (onRequestGet_part_000_unfold P env st Hc).
  destruct (fst (fetchEcowitt P RealTime st)) as [body|reason]; [|cbn; auto 6].
  destruct (Js.nullish body); [cbn; auto|].
  destruct (Js.is_zero_number (Js.prop body "code")); [|cbn; auto 6].
  cbv zeta.
  destruct (trend_history_states P env (Js.prop body "data") (fetched st)
              (fetched_part_000 st) eq_refl) as (Hf & Hd & _).
  destruct (trend_history P env (Js.prop body "data") (fetched st)) as [[t|e] s1];
    destruct (trend_history P env (Js.prop body "data") (fetched_part_000 st))
      as [[t0|e0] s2];
    cbn [fst snd] in Hf, Hd |- *; try discriminate;
    (split; [exact Hd|]); [|congruence].
  injection Hf as <-.
  cbn [resp_status resp_headers resp_data jsonResponse].
  split; [reflexivity|]. split; [reflexivity|]. split; [reflexivity|]. split.
  - intros k Hk Hk'. simpl.
    destruct (String.eqb k "realtime"); [reflexivity|].
    destruct (String.eqb_spec k "history") as [->|_]; [congruence|].
    destruct (String.eqb_spec k "history_error") as [->|_]; [congruence | reflexivity].
  - intros H. simpl. rewrite (Hsame H). reflexivity.
Qed.

(** X13.  A KV namespace that is down does not fail the request: with a
    binding whose reads throw, whether or not its writes do, the handler
    returns what it returns with a working binding to a namespace that
    holds nothing under [KV_HISTORY_KEY]. *)
Theorem onRequestGet_kv_outage P api_key application_key mac writes writes' st st' :
  kv_data st' !! KV_HISTORY_KEY = None ->
  fst (onRequestGet P
         (Environment api_key application_key mac (Some (KvNamespace false writes))) st)
  = fst (onRequestGet P
           (Environment api_key application_key mac (Some (KvNamespace true writes'))) st').
Proof.
  intros Hnone.
  set (down := Environment _ _ _ (Some (KvNamespace false writes))).
  set (up := Environment _ _ _ (Some (KvNamespace true writes'))).
  assert (Hcm : credentials_missing down = credentials_missing up) by reflexivity.
  destruct (credentials_missing up) eqn:Hc.
  { destruct (onRequestGet_no_credentials P down st Hcm) as [-> _].
    destruct (onRequestGet_no_credentials P up st' Hc) as [-> _]. reflexivity. }
  rewrite (onRequestGet_unfold P down st Hcm), (onRequestGet_unfold P up st' Hc).
  rewrite (fetchEcowitt_outcome P RealTime st st'), (fetchEcowitt_outcome P History st st').
  destruct (fst (fetchEcowitt P RealTime st')) as [body|reason]; [|reflexivity].
  destruct (Js.nullish body); [reflexivity|].
  destruct (Js.is_zero_number (Js.prop body "code")); [|reflexivity].
  cbv zeta. unfold trend_history. cbn [WEATHER_KV down up].
  rewrite !updateTrendHistory_unfold. cbv zeta.
  rewrite kv_get_failing by reflexivity.
  assert (Hup : starting_history
                  (fst (kv_get (KvNamespace true writes') KV_HISTORY_KEY (fetched st')))
                = empty_history).
  { unfold kv_get. cbn [reads_succeed logged kv_data fetched]. rewrite Hnone. reflexivity. }
  rewrite Hup. destruct (merge_readings _ _ empty_history); reflexivity.
Qed.

Lemma onRequestGet_kv_outage_witness :
  kv_data (fresh ∅) !! KV_HISTORY_KEY = None
  /\ fst (onRequestGet Scenario.all_up
            (Environment (VStr "api-key") (VStr "app-key") (VStr "AA:BB:CC:DD:EE:FF")
               (Some (KvNamespace false false)))
            (fresh (Scenario.stored Scenario.boundary_history)))
     = Ok (jsonResponse
             (VObj [("realtime", Scenario.reading "29.8" "32");
                    ("history", VObj []);
                    ("history_error", VNull);
                    ("trends", Scenario.first_history)]) 200).
Proof.
  assert (Hn : kv_data (fresh ∅) !! KV_HISTORY_KEY = None) by reflexivity.
  split; [exact Hn|].
  rewrite (onRequestGet_kv_outage Scenario.all_up _ _ _ false true
             (fresh (Scenario.stored Scenario.boundary_history)) (fresh ∅) Hn).
  vm_compute. reflexivity.
Defined.

(* ===================================================================== *)
(** * Readings and their conversion, continued *)
(* ===================================================================== *)

Module ConversionFacts.









Lemma trim_start_white ws s :
  StringToNumber.all_white ws = true -> Lexer.trim_start (ws ++ s) = Lexer.trim_start s.
Proof.
  induction ws as [|c ws IH]; [reflexivity|].
  cbn [StringToNumber.all_white]. intros H. apply andb_prop in H as [Hc Hw].
  rewrite app_cons. cbn [Lexer.trim_start]. rewrite Hc. auto.
Qed.

End ConversionFacts.

Import ConversionFacts.



(** X15.  White space before the text of a value field does not count:
    [parseEcowittValue] returns for ["  29.8"] what it returns for
    ["29.8"], and for a field of white space only what it returns for the
    empty string, absent. *)
Theorem parseEcowittValue_leading_space node ws s :
  StringToNumber.all_white ws = true ->
  Js.prop node "value" = VStr (ws ++ s) ->
  parseEcowittValue node = parseEcowittValue (VObj [("value", VStr s)])
  /\ (Lexer.is_empty s = true -> parseEcowittValue node = Ok None).
Proof.
  intros Hw Hv.
  assert (Hs : parseEcowittValue (VObj [("value", VStr s)])
               = Ok (if Number.isNaN (parseFloat_string s) then None
                     else Some (parseFloat_string s)))
    by (apply parseEcowittValue_string; reflexivity).
  rewrite (parseEcowittValue_string node _ Hv), Hs.
  unfold parseFloat_string. rewrite (trim_start_white ws s Hw).
  split; [reflexivity|]. destruct s; [reflexivity | discriminate].
Qed.

Lemma parseEcowittValue_leading_space_witness :
  StringToNumber.all_white "  " = true
  /\ parseEcowittValue (VObj [("value", VStr "  29.8 inHg")]) = Ok (Some 29.8%float)
  /\ parseEcowittValue (VObj [("value", VStr "  ")]) = Ok None.
Proof.
  split; [reflexivity|]. split.
  - rewrite (proj1 (parseEcowittValue_leading_space
                      (VObj [("value", VStr "  29.8 inHg")]) "  " "29.8 inHg"
                      eq_refl eq_refl)).
    vm_compute. reflexivity.
  - exact (proj2 (parseEcowittValue_leading_space
                    (VObj [("value", VStr "  ")]) "  " EmptyString eq_refl eq_refl) eq_refl).
Defined.
